(** * json_to_csv: a shallow embedding of [main.py]

    The program reads JSON documents from an intake folder, flattens the
    value of every top-level entry into a single-level record keyed by
    dotted / indexed paths, appends each record to the CSV file of its
    top-level key, archives the document, and writes one line per run to
    a control file.

    Python values are modelled as follows.
    - A [str] is a [string]: the bytes of its UTF-8 encoding.  Comparing
      UTF-8 bytes lexicographically orders strings by code point, which
      is the order of Python's [sorted] on [str].
    - A [dict] is an association list in insertion order whose keys are
      pairwise distinct ([dict_wf]); [dict_setitem] is [d[k] = v].
    - Exceptions are the [Raise] results of type [result].
    - The file system, the console and the clock are an explicit
      [world] threaded through every effectful function.
    - Directories are not part of the world.  The group files lie in the
      output folder, which the batch makes before it writes, and opening
      them is taken to succeed.  The control file lies where the
      configuration says, in a directory the program never makes, and it
      is opened outside the [try] of [main]: whether that [open] raises
      is an answer of the environment ([open_control]). *)

From Stdlib Require Import String Ascii ZArith List DecimalString.
From stdpp Require Import gmap strings list fin_maps sorting.

#[local] Set Warnings "-register-all,-clear-no-such-hyp".

(** ** Values produced by [json.load] *)

Inductive json : Type :=
| JNull
| JBool (b : bool)
| JInt (n : Z)
| JFloat (repr : string)          (* a float, identified by its [repr] *)
| JString (s : string)
| JArray (l : list json)
| JObject (d : list (string * json)).

Abbreviation dict := (list (string * json)).

Definition is_dict (v : json) : bool :=
  match v with JObject _ => true | _ => false end.

Definition is_list (v : json) : bool :=
  match v with JArray _ => true | _ => false end.

(** A scalar is anything that is neither a [dict] nor a [list]. *)
Definition is_scalar (v : json) : bool := negb (is_dict v) && negb (is_list v).

(** Induction on [json] that reaches the elements of arrays and the
    values of objects. *)
Section JsonInd.

Variable P : json -> Prop.
Hypothesis HNull : P JNull.
Hypothesis HBool : forall b, P (JBool b).
Hypothesis HInt : forall n, P (JInt n).
Hypothesis HFloat : forall r, P (JFloat r).
Hypothesis HString : forall s, P (JString s).
Hypothesis HArray : forall l, Forall P l -> P (JArray l).
Hypothesis HObject : forall d, Forall (fun kv => P (snd kv)) d -> P (JObject d).

Fixpoint json_nested_ind (j : json) : P j :=
  match j with
  | JNull => HNull
  | JBool b => HBool b
  | JInt n => HInt n
  | JFloat r => HFloat r
  | JString s => HString s
  | JArray l =>
      HArray l
        ((fix elements (l : list json) : Forall P l :=
            match l with
            | [] => @List.Forall_nil _ P
            | x :: l' => @List.Forall_cons _ P x l' (json_nested_ind x) (elements l')
            end) l)
  | JObject d =>
      HObject d
        ((fix values (d : list (string * json))
            : Forall (fun kv => P (snd kv)) d :=
            match d with
            | [] => @List.Forall_nil _ (fun kv => P (snd kv))
            | kv :: d' =>
                @List.Forall_cons _ (fun kv => P (snd kv)) kv d'
                  (json_nested_ind (snd kv)) (values d')
            end) d)
  end.

End JsonInd.

(** ** Exceptions *)

Inductive exn : Type :=
| AttributeError      (* [.items()] or [.get()] on something that has none *)
| JSONDecodeError     (* [json.load] on a malformed document *)
| FileNotFoundError   (* [open] or [os.listdir] on a missing path *)
| ValueError.         (* [DictWriter.writerow] on a key outside fieldnames *)

Inductive result (A : Type) : Type :=
| Ok (a : A)
| Raise (e : exn).
Arguments Ok {A} a.
Arguments Raise {A} e.

(** ** Python dictionaries *)

Module Dict.

Definition keys (d : dict) : list string := map fst d.

Definition dict_wf (d : dict) : Prop := NoDup (keys d).

(** [d.get(k)] as an option. *)
Fixpoint lookup (d : dict) (k : string) : option json :=
  match d with
  | [] => None
  | (k', v) :: d' => if String.eqb k' k then Some v else lookup d' k
  end.

(** [d.get(k, default)] *)
Definition get (d : dict) (k : string) (default : json) : json :=
  match lookup d k with Some v => v | None => default end.

(** [d[k] = v]: an existing key keeps its position and takes the new
    value, a new key goes last. *)
Fixpoint dict_setitem (d : dict) (k : string) (v : json) : dict :=
  match d with
  | [] => [(k, v)]
  | (k', v') :: d' =>
      if String.eqb k' k then (k', v) :: d'
      else (k', v') :: dict_setitem d' k v
  end.

(** [dict(items)]: the pairs are inserted from left to right. *)
Definition dict_from_items (items : list (string * json)) : dict :=
  fold_left (fun d kv => dict_setitem d (fst kv) (snd kv)) items [].

(** The value of the last pair of [items] whose key is [k]. *)
Fixpoint last_binding (items : list (string * json)) (k : string)
  : option json :=
  match items with
  | [] => None
  | (k', v) :: rest =>
      match last_binding rest k with
      | Some w => Some w
      | None => if String.eqb k' k then Some v else None
      end
  end.

End Dict.
Import Dict.

(** ** The Flattener: [flatten_json] *)

(** [str(i)] for a list index. *)
Definition str_of_nat (i : nat) : string :=
  NilEmpty.string_of_uint (Nat.to_uint i).

(** Truth value of a [str]: only the empty string is false. *)
Definition truthy (s : string) : bool :=
  match s with EmptyString => false | _ => true end.

Section FlattenLoops.

(** The recursive call, [flatten_json(_, _, separator=separator)]. *)
Variable flatten : json -> string -> result dict.
Variable separator : string.

(** [for i, item in enumerate(v): items.extend(flatten_json(item,
    f"{new_key}[{i}]").items())], started at index [i]. *)
Fixpoint flatten_enumerate (new_key : string) (v : list json) (i : nat)
    (items : list (string * json)) : result (list (string * json)) :=
  match v with
  | [] => Ok items
  | item :: v' =>
      match flatten item (new_key +:+ "[" +:+ str_of_nat i +:+ "]") with
      | Ok d => flatten_enumerate new_key v' (S i) (items ++ d)
      | Raise e => Raise e
      end
  end.

(** [for k, v in json_object.items(): ...] *)
Fixpoint flatten_items (parent_key : string) (kvs : list (string * json))
    (items : list (string * json)) : result (list (string * json)) :=
  match kvs with
  | [] => Ok items
  | (k, v) :: rest =>
      let new_key :=
        if truthy parent_key then parent_key +:+ separator +:+ k else k in
      match v with
      | JObject _ =>
          match flatten v new_key with
          | Ok d => flatten_items parent_key rest (items ++ d)
          | Raise e => Raise e
          end
      | JArray l =>
          match flatten_enumerate new_key l 0 items with
          | Ok items' => flatten_items parent_key rest items'
          | Raise e => Raise e
          end
      | _ => flatten_items parent_key rest (items ++ [(new_key, v)])
      end
  end.

End FlattenLoops.

(** [flatten_json(json_object, parent_key, separator)].  Only a [dict]
    has [.items()]; on any other value the call raises [AttributeError].
    The recursion limit of the interpreter is not part of this
    function: where the program stops with [RecursionError] on a value
    nested deeper than the limit, the function goes on.  A result
    [Ok d] is what the program returns whenever the program returns. *)
Fixpoint flatten_json (json_object : json) (parent_key separator : string)
    {struct json_object} : result dict :=
  match json_object with
  | JObject kvs =>
      match flatten_items (fun v pk => flatten_json v pk separator)
                          separator parent_key kvs [] with
      | Ok items => Ok (dict_from_items items)
      | Raise e => Raise e
      end
  | _ => Raise AttributeError
  end.

(** The call [flatten_json(x)] with the default arguments. *)
Definition flatten_json_default (json_object : json) : result dict :=
  flatten_json json_object "" ".".


(** ** The world: files, console, clock *)

(** One CSV record: the fields handed to the [csv] writer, in order. *)
Abbreviation line := (list json).

(** A file is the sequence of what was written to it.  [Text p] is text
    that does not come from this program, as [json.load] sees it:
    [Some j] when it is the JSON text of [j], [None] when it is
    malformed.  [Row l] is one record appended by a [csv] writer. *)
Inductive chunk : Type :=
| Text (parsed : option json)
| Row (fields : line).

Abbreviation file := (list chunk).

(** [datetime.now()], to the second ([strftime] prints no more). *)
Record datetime : Type := mkDatetime {
  year : nat; month : nat; day : nat;
  hour : nat; minute : nat; second : nat
}.

Inductive event : Type :=
| EvMakedirs (path : string)
| EvListdir (path : string)
| EvLoad (path : string)
| EvAppend (filename : string) (data : dict) (numero_control : json)
| EvMove (src dst : string)
| EvPrintMoved (filename : string)
| EvPrintError (e : exn)
| EvNow (t : datetime)
| EvControl (control_file : string) (fields : line).

Record world : Type := mkWorld {
  files : gmap string file;
  trace : list event          (* the effects so far, oldest first *)
}.

(** What the program is given and does not change. *)
Record env : Type := mkEnv {
  process_id : string;                          (* [str(uuid.uuid4())] *)
  folders : gmap string string;                 (* section [Folders] of config.ini *)
  listdir : string -> result (list string);
    (* the answer of [os.listdir], asked after the two [os.makedirs]: it
       can be [FileNotFoundError] only for a folder that these calls do
       not make *)
  clock : nat -> datetime;                      (* wall clock at the n-th effect *)
  open_control : string -> option exn
    (* what [open(path, 'a')] raises when [update_control_file] opens
       its file, if it raises: the program never makes the directory of
       the control file, and the call is outside the [try] of [main] *)
}.

(** Computations that read and change the world and may raise; the
    world reached when an exception is raised is kept. *)
Definition M (A : Type) : Type := world -> result A * world.

Definition ret {A} (a : A) : M A := fun w => (Ok a, w).

Definition bind {A B} (c : M A) (k : A -> M B) : M B :=
  fun w => match c w with
           | (Ok a, w') => k a w'
           | (Raise e, w') => (Raise e, w')
           end.

Definition lift {A} (r : result A) : M A := fun w => (r, w).

Definition log (e : event) : M unit :=
  fun w => (Ok tt, mkWorld (files w) (trace w ++ [e])).

Notation "x <~ c ;; k" := (bind c (fun x => k))
  (at level 100, c at next level, right associativity).
Notation "c ;;; k" := (bind c (fun _ => k))
  (at level 100, right associativity).

(** [for x in l: body(x)] *)
Fixpoint for_each {A} (l : list A) (body : A -> M unit) : M unit :=
  match l with
  | [] => ret tt
  | x :: l' => body x ;;; for_each l' body
  end.

(** ** Paths and strings *)

(** [s.endswith(suffix)] *)
Definition endswith (s suffix : string) : bool :=
  (String.length suffix <=? String.length s)%nat &&
  String.eqb
    (substring (String.length s - String.length suffix)
               (String.length suffix) s)
    suffix.

(** [s.startswith(p)] *)
Definition startswith (s p : string) : bool := String.prefix p s.

(** [os.path.join(a, b)] of posixpath. *)
Definition os_path_join (a b : string) : string :=
  if startswith b "/" then b
  else if negb (truthy a) || endswith a "/" then a +:+ b
  else a +:+ "/" +:+ b.

(** ** File primitives *)

(** [os.path.exists(path)] *)
Definition os_path_exists (path : string) : M bool :=
  fun w => (Ok (bool_decide (is_Some (files w !! path))), w).

(** [open(path, 'a')]: a missing file is created empty. *)
Definition open_append (path : string) : M unit :=
  fun w => match files w !! path with
           | Some _ => (Ok tt, w)
           | None => (Ok tt, mkWorld (<[path := []]> (files w)) (trace w))
           end.

(** One record leaves the [csv] writer bound to [path]. *)
Definition write_line (path : string) (l : line) : M unit :=
  fun w => (Ok tt,
            mkWorld (<[path := default [] (files w !! path) ++ [Row l]]> (files w))
                    (trace w)).

(** [DictWriter.writeheader()] *)
Definition writeheader (path : string) (fieldnames : list string) : M unit :=
  write_line path (JString <$> fieldnames).

(** [DictWriter.writerow(rowdict)], with the default [extrasaction]
    (raise on a key outside [fieldnames]) and [restval] (the empty
    string). *)
Definition writerow (path : string) (fieldnames : list string)
    (rowdict : dict) : M unit :=
  if forallb (fun k => bool_decide (k ∈ fieldnames)) (keys rowdict)
  then write_line path ((fun k => get rowdict k (JString "")) <$> fieldnames)
  else lift (Raise ValueError).

(** [sorted(keys)] on a set of strings. *)
Definition sorted (ks : gset string) : list string :=
  merge_sort String.le (elements ks).

(** [open(path, 'r')] followed by [json.load]: only a file that holds
    exactly one well-formed JSON text parses. *)
Definition json_load (path : string) : M json :=
  fun w => match files w !! path with
           | None => (Raise FileNotFoundError, w)
           | Some [Text (Some j)] => (Ok j, w)
           | Some _ => (Raise JSONDecodeError, w)
           end.

(** [shutil.move(src, dst)]: a rename that replaces [dst]. *)
Definition shutil_move (src dst : string) : M unit :=
  fun w => match files w !! src with
           | None => (Raise FileNotFoundError, w)
           | Some f => (Ok tt, mkWorld (<[dst := f]> (delete src (files w)))
                                       (trace w ++ [EvMove src dst]))
           end.

(** [obj.get(k, default)]: only a [dict] has [.get]. *)
Definition py_get (obj : json) (k : string) (default : json) : result json :=
  match obj with
  | JObject d => Ok (get d k default)
  | _ => Raise AttributeError
  end.

(** [obj.items()] *)
Definition py_items (obj : json) : result (list (string * json)) :=
  match obj with
  | JObject d => Ok d
  | _ => Raise AttributeError
  end.

(** ** Timestamps *)

(** A string of [k] zeros. *)
Fixpoint zeros (k : nat) : string :=
  match k with
  | 0 => ""
  | S k' => String "0" (zeros k')
  end.

(** [n] in decimal, padded with zeros on the left to [width] digits. *)
Definition pad (width n : nat) : string :=
  let s := str_of_nat n in
  zeros (width - String.length s) +:+ s.

(** [t.strftime('%Y-%m-%d %H:%M:%S')] *)
Definition strftime (t : datetime) : string :=
  pad 4 (year t) +:+ "-" +:+ pad 2 (month t) +:+ "-" +:+ pad 2 (day t)
  +:+ " " +:+ pad 2 (hour t) +:+ ":" +:+ pad 2 (minute t)
  +:+ ":" +:+ pad 2 (second t).









(** ** The program *)

Section Program.

Variable E : env.

(** [append_flattened_to_csv(data, filename, numero_control)].  The
    caller's [data] is changed in place: the result is the state of
    that dictionary when the call returns. *)
Definition append_flattened_to_csv (data : dict) (filename : string)
    (numero_control : json) : M dict :=
  log (EvAppend filename data numero_control) ;;;
  file_exists <~ os_path_exists filename ;;
  let keys : gset string := list_to_set (keys data) in
  let keys := keys ∪ {["numeroControl"]} in
  let keys := keys ∪ {["processID"]} in
  open_append filename ;;;
  let fieldnames := sorted keys in
  (if negb file_exists then writeheader filename fieldnames else ret tt) ;;;
  let data := dict_setitem data "numeroControl" numero_control in
  let data := dict_setitem data "processID" (JString (process_id E)) in
  writerow filename fieldnames data ;;;
  ret data.

(** [open(control_file, 'a')] in [update_control_file]: it raises what
    the environment says, and creates a missing file otherwise. *)
Definition open_control_file (control_file : string) : M unit :=
  match open_control E control_file with
  | Some e => lift (Raise e)
  | None => open_append control_file
  end.

(** [update_control_file(control_file, process_id, start_date,
    end_date, status)] *)
Definition update_control_file (control_file process_id start_date
    end_date status : string) : M unit :=
  let row := [("processID", JString process_id);
              ("start_date", JString start_date);
              ("end_date", JString end_date);
              ("status", JString status)] in
  let fieldnames := ["processID"; "start_date"; "end_date"; "status"] in
  log (EvControl control_file (snd <$> row)) ;;;
  file_exists <~ os_path_exists control_file ;;
  open_control_file control_file ;;;
  (if negb file_exists then writeheader control_file fieldnames
   else ret tt) ;;;
  writerow control_file fieldnames row.

(** [json_data.get("identificacion", {}).get("numeroControl", "N/A")] *)
Definition numero_control_of (json_data : json) : result json :=
  match py_get json_data "identificacion" (JObject []) with
  | Ok identificacion => py_get identificacion "numeroControl" (JString "N/A")
  | Raise e => Raise e
  end.

(** Body of [for item in value]. *)
Definition process_item (key output_file : string) (numero_control : json)
    (item : json) : M unit :=
  if is_dict item then
    flattened <~ lift (flatten_json_default item) ;;
    append_flattened_to_csv flattened output_file numero_control ;;;
    ret tt
  else
    append_flattened_to_csv [(key, item)] output_file numero_control ;;;
    ret tt.

(** The [if / elif / else] on the type of [value]. *)
Definition process_value (key output_file : string) (numero_control : json)
    (value : json) : M unit :=
  match value with
  | JObject _ =>
      flattened <~ lift (flatten_json_default value) ;;
      append_flattened_to_csv flattened output_file numero_control ;;;
      ret tt
  | JArray l =>
      for_each l (process_item key output_file numero_control)
  | _ =>
      append_flattened_to_csv [(key, value)] output_file numero_control ;;;
      ret tt
  end.

(** Body of [for key, value in json_data.items()]. *)
Definition process_entry (output_folder : string) (numero_control : json)
    (entry : string * json) : M unit :=
  let (key, value) := entry in
  let output_file := os_path_join output_folder (key +:+ ".csv") in
  process_value key output_file numero_control value ;;;
  if String.eqb key "cuerpo documento" then
    append_flattened_to_csv [] output_file numero_control ;;;
    ret tt
  else ret tt.

(** Body of [for filename in os.listdir(input_folder)]. *)
Definition process_file (input_folder output_folder processed_folder
    filename : string) : M unit :=
  if endswith filename ".json" then
    let file_path := os_path_join input_folder filename in
    log (EvLoad file_path) ;;;
    json_data <~ json_load file_path ;;
    numero_control <~ lift (numero_control_of json_data) ;;
    entries <~ lift (py_items json_data) ;;
    for_each entries (process_entry output_folder numero_control) ;;;
    let processed_path := os_path_join processed_folder filename in
    shutil_move file_path processed_path ;;;
    log (EvPrintMoved filename)
  else ret tt.

(** [process_files_in_folder(input_folder, output_folder,
    processed_folder)] *)
Definition process_files_in_folder (input_folder output_folder
    processed_folder : string) : M unit :=
  log (EvMakedirs output_folder) ;;;
  log (EvMakedirs processed_folder) ;;;
  log (EvListdir input_folder) ;;;
  filenames <~ lift (listdir E input_folder) ;;
  for_each filenames
    (process_file input_folder output_folder processed_folder).

(** [config.get('Folders', option, fallback=fallback)] *)
Definition config_get (option fallback : string) : string :=
  default fallback (folders E !! option).

(** [datetime.now()] *)
Definition datetime_now : M datetime :=
  fun w => let t := clock E (length (trace w)) in
           (Ok t, mkWorld (files w) (trace w ++ [EvNow t])).

(** The [try ... except Exception] of [main]. *)
Definition try_status (body : M unit) : M string :=
  fun w => match body w with
           | (Ok _, w') => (Ok "Success", w')
           | (Raise e, w') => (log (EvPrintError e) ;;; ret "Failed") w'
           end.

Definition main : M unit :=
  let input_folder := config_get "input_folder" "files/fc" in
  let output_folder := config_get "output_folder" "files/fc/output_csv" in
  let processed_folder :=
    config_get "processed_folder" "files/fc/processed" in
  let control_file :=
    config_get "control_file" "files/fc/output_csv/control.csv" in
  start <~ datetime_now ;;
  let start_date := strftime start in
  status <~ try_status
    (process_files_in_folder input_folder output_folder processed_folder) ;;
  finish <~ datetime_now ;;
  let end_date := strftime finish in
  update_control_file control_file (process_id E) start_date end_date status.

End Program.

(** ** Vocabulary of the statements *)

(** The accumulator form of [dict(items)]. *)
Definition dict_extend (d items : dict) : dict :=
  fold_left (fun d kv => dict_setitem d (fst kv) (snd kv)) items d.

(** The column set of one call: the record's keys and the two injected
    names. *)
Definition column_set (data : dict) : gset string :=
  list_to_set (keys data) ∪ {["numeroControl"]} ∪ {["processID"]}.

(** The record as it is when [writerow] receives it. *)
Definition injected (E : env) (data : dict) (numero_control : json) : dict :=
  dict_setitem (dict_setitem data "numeroControl" numero_control)
               "processID" (JString (process_id E)).

(** The values of [rowdict] in the order of [fieldnames]. *)
Definition row_of (fieldnames : list string) (rowdict : dict) : line :=
  (fun k => get rowdict k (JString "")) <$> fieldnames.

(** The value at the path [identificacion.numeroControl], if any. *)
Definition numero_control_path (json_data : json) : option json :=
  match json_data with
  | JObject d =>
      match lookup d "identificacion" with
      | Some (JObject identificacion) => lookup identificacion "numeroControl"
      | _ => None
      end
  | _ => None
  end.

(** ["identificacion"] is missing, or is an object without
    ["numeroControl"]. *)
Definition lacks_numero_control (d : dict) : Prop :=
  lookup d "identificacion" = None
  \/ exists identificacion,
       lookup d "identificacion" = Some (JObject identificacion)
       /\ lookup identificacion "numeroControl" = None.

(** Every run of [c] only adds events to the trace, all of them in [P]. *)
Definition emits {A} (P : event -> Prop) (c : M A) : Prop :=
  forall w, exists evs, trace (snd (c w)) = trace w ++ evs /\ Forall P evs.

Definition is_append (e : event) : Prop :=
  match e with EvAppend _ _ _ => True | _ => False end.


(** The world after one call of the appender. *)
Definition appended (E : env) (data : dict) (filename : string)
    (numero_control : json) (w : world) : world :=
  snd (append_flattened_to_csv E data filename numero_control w).

(** The header of the control file. *)
Definition control_header : line :=
  [JString "processID"; JString "start_date"; JString "end_date";
   JString "status"].

(** The Run Record of one run. *)
Definition run_record (E : env) (start finish : datetime) (status : string)
    : line :=
  [JString (process_id E); JString (strftime start);
   JString (strftime finish); JString status].

(** The folders and the control file of a run, from the configuration. *)
Definition input_folder_of (E : env) : string :=
  config_get E "input_folder" "files/fc".
Definition output_folder_of (E : env) : string :=
  config_get E "output_folder" "files/fc/output_csv".
Definition processed_folder_of (E : env) : string :=
  config_get E "processed_folder" "files/fc/processed".
Definition control_file_of (E : env) : string :=
  config_get E "control_file" "files/fc/output_csv/control.csv".


(** ** Vocabulary of the further properties *)

(** An entry that the loop of [flatten_json] gets through, when [ok]
    tells on which values the recursive call returns. *)
Definition entry_flattenable (ok : json -> bool) (kv : string * json) : bool :=
  match snd kv with
  | JObject _ => ok (snd kv)
  | JArray l => forallb ok l
  | _ => true
  end.

(** [j] is an object in which, at any depth, every element of an array
    is an object. *)
Fixpoint flattenable (j : json) : bool :=
  match j with
  | JObject d => forallb (entry_flattenable flattenable) d
  | _ => false
  end.

(** [key] begins with [parent_key] followed by [separator]. *)
Definition under (parent_key separator key : string) : Prop :=
  exists rest, key = parent_key +:+ separator +:+ rest.

(** [c] leaves every file whose path is outside [Q] as it was. *)
Definition writes_only {A} (Q : string -> Prop) (c : M A) : Prop :=
  forall w p, ~ Q p -> files (snd (c w)) !! p = files w !! p.

(** [c] removes nothing and rewrites nothing: a file that exists keeps
    its content and may receive more at its end. *)
Definition append_only {A} (c : M A) : Prop :=
  forall w p old,
    files w !! p = Some old ->
    exists new, files (snd (c w)) !! p = Some (old ++ new).

(** One run as the control file records it: identifier, start, end,
    status. *)
Definition run_fields : Type := string * string * string * string.

Definition ledger_row (r : run_fields) : chunk :=
  let '(pid, start_date, end_date, status) := r in
  Row [JString pid; JString start_date; JString end_date; JString status].

(** [update_control_file] called once per run of [runs], in order. *)
Definition ledger_calls (E : env) (control_file : string)
    (runs : list run_fields) : M unit :=
  for_each runs
    (fun r => let '(pid, start_date, end_date, status) := r in
              update_control_file E control_file pid start_date end_date
                status).

(** The output file of the group [key]. *)
Definition group_file (output_folder key : string) : string :=
  os_path_join output_folder (key +:+ ".csv").

(** The record that the router makes of one element of a top-level
    array under [key]. *)
Definition record_of (key : string) (item : json) : result dict :=
  if is_dict item then flatten_json_default item else Ok [(key, item)].

(** The world in which the loop over the listing starts. *)
Definition listing_started (input_folder output_folder processed_folder : string)
    (w : world) : world :=
  mkWorld (files w)
          (trace w ++ [EvMakedirs output_folder; EvMakedirs processed_folder;
                       EvListdir input_folder]).

(** If [e] is a call of the appender, it is made with the control
    number [nc]. *)
Definition carries (nc : json) (e : event) : Prop :=
  match e with
  | EvAppend _ _ numero_control => numero_control = nc
  | _ => True
  end.

(** The records that the router derives from the elements of a
    top-level array, in order. *)
Fixpoint records_of_items (key : string) (l : list json) : result (list dict) :=
  match l with
  | [] => Ok []
  | item :: l' =>
      match record_of key item with
      | Ok d =>
          match records_of_items key l' with
          | Ok ds => Ok (d :: ds)
          | Raise e => Raise e
          end
      | Raise e => Raise e
      end
  end.

(** The records that the router derives from the value of an entry. *)
Definition records_of_value (key : string) (value : json) : result (list dict) :=
  match value with
  | JObject _ =>
      match flatten_json_default value with
      | Ok d => Ok [d]
      | Raise e => Raise e
      end
  | JArray l => records_of_items key l
  | _ => Ok [[(key, value)]]
  end.

(** The records derived from one entry, each with the group file it
    goes to; the entry ["cuerpo documento"] ends with the empty record. *)
Definition records_of_entry (output_folder : string) (entry : string * json)
    : result (list (string * dict)) :=
  let (key, value) := entry in
  match records_of_value key value with
  | Ok ds =>
      Ok ((fun d => (group_file output_folder key, d)) <$>
          (ds ++ if String.eqb key "cuerpo documento" then [[]] else []))
  | Raise e => Raise e
  end.

(** The records derived from a document, entry after entry. *)
Fixpoint records_of_entries (output_folder : string) (entries : dict)
    : result (list (string * dict)) :=
  match entries with
  | [] => Ok []
  | entry :: entries' =>
      match records_of_entry output_folder entry with
      | Ok rs =>
          match records_of_entries output_folder entries' with
          | Ok rs' => Ok (rs ++ rs')
          | Raise e => Raise e
          end
      | Raise e => Raise e
      end
  end.

(** The world after the appender was called for each of [records], in
    order. *)
Definition append_all (E : env) (numero_control : json)
    (records : list (string * dict)) (w : world) : world :=
  fold_left (fun w r => appended E (snd r) (fst r) numero_control w) records w.

(** ** A small run, used to exercise the statements *)

(** A run whose intake folder lists one document and one other file, and
    whose clock advances by a second at each effect up to [:59]. *)
Definition example_env : env :=
  mkEnv "run-1" ∅ (fun _ => Ok ["d.json"; "notes.txt"])
        (fun n => mkDatetime 2024 1 2 3 4 (Nat.min n 59))
        (fun _ => None).

Definition example_world : world := mkWorld ∅ [].

Definition example_doc : json :=
  JObject [("identificacion", JObject [("numeroControl", JString "DTE-01")]);
           ("cuerpo documento", JArray [JObject [("item", JInt 1)]]);
           ("resumen", JObject [("total", JInt 10)])].

Definition example_doc_world : world :=
  mkWorld {[ "in/d.json" := [Text (Some example_doc)] ]} [].

(** A batch of three documents, the second of which is malformed. *)
Definition example_batch_env : env :=
  mkEnv "run-2" ∅ (fun _ => Ok ["ok.json"; "bad.json"; "later.json"])
        (fun n => mkDatetime 2024 1 2 3 4 (Nat.min n 59))
        (fun _ => None).

Definition example_batch_world : world :=
  mkWorld {[ "in/ok.json" := [Text (Some (JObject [("a", JInt 1)]))];
             "in/bad.json" := [Text None];
             "in/later.json" := [Text (Some (JObject [("z", JInt 2)]))] ]} [].

(** A run whose configured intake folder, [missing], does not exist;
    the other folders are the default ones, which the run makes. *)
Definition example_missing_env : env :=
  mkEnv "run-3" {[ "input_folder" := "missing" ]}
        (fun _ => Raise FileNotFoundError)
        (fun n => mkDatetime 2024 1 2 3 4 (Nat.min n 59))
        (fun _ => None).

(** A run with the default folders: the listing of the intake folder
    holds a document, another file, and the output and archive folders,
    which lie inside it. *)
Definition example_run_env : env :=
  mkEnv "run-1" ∅
        (fun _ => Ok ["d.json"; "notes.txt"; "output_csv"; "processed"])
        (fun n => mkDatetime 2024 1 2 3 4 (Nat.min n 59))
        (fun _ => None).

Definition example_run_world : world :=
  mkWorld {[ "files/fc/d.json" := [Text (Some example_doc)];
             "files/fc/notes.txt" := [Text None] ]} [].



(** * Properties *)

(** ** Dictionaries *)

Section DictFacts.

Implicit Types (d items : dict) (k : string) (v : json).

Lemma lookup_setitem_eq d k v : lookup (dict_setitem d k v) k = Some v.
Proof.
  induction d as [|[k' v'] d IH]; simpl.
  - by rewrite String.eqb_refl.
  - destruct (String.eqb k' k) eqn:Hk; simpl; by rewrite Hk.
Qed.

Lemma lookup_setitem_ne d k k' v :
  k <> k' -> lookup (dict_setitem d k v) k' = lookup d k'.
Proof.
  intros Hne. induction d as [|[k0 v0] d IH]; simpl.
  - by apply String.eqb_neq in Hne as ->.
  - destruct (String.eqb k0 k) eqn:Hk; simpl; [|by rewrite IH].
    apply String.eqb_eq in Hk as ->.
    by apply String.eqb_neq in Hne as ->.
Qed.

Lemma keys_setitem d k v k' :
  k' ∈ keys (dict_setitem d k v) <-> k' ∈ keys d \/ k' = k.
Proof.
  unfold keys. induction d as [|[k0 v0] d IH]; simpl.
  - set_solver.
  - destruct (String.eqb k0 k) eqn:Hk; simpl.
    + apply String.eqb_eq in Hk as ->. set_solver.
    + set_solver.
Qed.

Lemma setitem_fresh d k v : k ∉ keys d -> dict_setitem d k v = d ++ [(k, v)].
Proof.
  unfold keys. induction d as [|[k0 v0] d IH]; simpl; [done|].
  intros Hk. destruct (String.eqb k0 k) eqn:Hk0.
  - apply String.eqb_eq in Hk0 as ->. set_solver.
  - rewrite IH; [done | set_solver].
Qed.

Lemma lookup_None_keys d k : lookup d k = None <-> k ∉ keys d.
Proof.
  unfold keys. induction d as [|[k0 v0] d IH]; simpl; [set_solver|].
  destruct (String.eqb k0 k) eqn:Hk.
  - apply String.eqb_eq in Hk as ->. set_solver.
  - apply String.eqb_neq in Hk. set_solver.
Qed.

Lemma setitem_wf d k v : dict_wf d -> dict_wf (dict_setitem d k v).
Proof.
  unfold dict_wf, keys. induction d as [|[k0 v0] d IH]; simpl.
  - intros _. apply NoDup_singleton.
  - rewrite !NoDup_cons. intros [Hk0 Hd].
    destruct (String.eqb k0 k) eqn:Hk; simpl; rewrite NoDup_cons.
    + done.
    + split; [|by apply IH]. apply String.eqb_neq in Hk.
      intros Hin. apply (keys_setitem d k v k0) in Hin. naive_solver.
Qed.

Lemma dict_extend_wf d items : dict_wf d -> dict_wf (dict_extend d items).
Proof.
  revert d. induction items as [|[k v] items IH]; intros d Hd; simpl; [done|].
  apply IH. by apply setitem_wf.
Qed.

Lemma dict_extend_lookup d items k :
  lookup (dict_extend d items) k =
  match last_binding items k with Some v => Some v | None => lookup d k end.
Proof.
  revert d. induction items as [|[k0 v0] items IH]; intros d; simpl; [done|].
  rewrite IH. destruct (last_binding items k); [done|].
  destruct (String.eqb k0 k) eqn:Hk.
  - apply String.eqb_eq in Hk as ->. apply lookup_setitem_eq.
  - apply String.eqb_neq in Hk. by apply lookup_setitem_ne.
Qed.

Lemma dict_extend_fresh d items :
  NoDup (keys (d ++ items)) -> dict_extend d items = d ++ items.
Proof.
  revert d. induction items as [|[k v] items IH]; intros d Hnd; simpl.
  - by rewrite app_nil_r.
  - rewrite setitem_fresh.
    + rewrite IH; rewrite <- app_assoc; done.
    + unfold keys in *. rewrite fmap_app in Hnd.
      apply NoDup_app in Hnd as (_ & Hdisj & _).
      intros Hin. apply (Hdisj _ Hin). simpl. left.
Qed.

Lemma dict_from_items_wf items : dict_wf (dict_from_items items).
Proof. apply dict_extend_wf, NoDup_nil_2. Qed.

Lemma dict_from_items_lookup items k :
  lookup (dict_from_items items) k = last_binding items k.
Proof.
  change (dict_from_items items) with (dict_extend [] items).
  rewrite dict_extend_lookup. by destruct (last_binding items k).
Qed.

Lemma dict_from_items_id d : dict_wf d -> dict_from_items d = d.
Proof. intros Hd. by apply (dict_extend_fresh [] d). Qed.

End DictFacts.

(** ** The Flattener *)

Section FlattenFacts.

Variable flatten : json -> string -> result dict.
Variable separator : string.

(** With an empty prefix, a run of scalar entries is copied as is. *)
Lemma flatten_items_scalars (d items : dict) :
  Forall (fun kv => is_scalar (snd kv) = true) d ->
  flatten_items flatten separator "" d items = Ok (items ++ d).
Proof.
  intros Hd. revert items.
  induction Hd as [|[k v] d Hv _ IH]; intros items; simpl.
  - by rewrite app_nil_r.
  - destruct v; simpl in Hv; try discriminate;
      rewrite IH, <- app_assoc; done.
Qed.

(** The recursive call raises nothing but [AttributeError] on [x]. *)
Let raises_only (x : json) : Prop :=
  forall pk e, flatten x pk = Raise e -> e = AttributeError.

Lemma flatten_enumerate_raise_only (new_key : string) (l : list json) :
  Forall raises_only l ->
  forall i items e,
    flatten_enumerate flatten new_key l i items = Raise e ->
    e = AttributeError.
Proof.
  induction 1 as [|x l Hx _ IH]; intros i items e; simpl; [done|].
  destruct (flatten x _) as [d|e'] eqn:Hfx.
  - apply IH.
  - intros [= <-]. by apply (Hx _ _ Hfx).
Qed.

(** The loop over an array raises as soon as an element is not an
    object. *)
Lemma flatten_enumerate_non_dict (new_key : string) (l : list json) :
  (forall x pk, is_dict x = false -> flatten x pk = Raise AttributeError) ->
  Forall raises_only l ->
  forallb is_dict l = false ->
  forall i items,
    flatten_enumerate flatten new_key l i items
    = Raise AttributeError.
Proof.
  intros Hnd. induction 1 as [|x l Hx _ IH]; intros Hl i items; simpl in *;
    [done|].
  destruct (is_dict x) eqn:Hdx.
  - destruct (flatten x _) as [d|e'] eqn:Hfx; [by apply IH|].
    by rewrite (Hx _ _ Hfx).
  - by rewrite Hnd.
Qed.

Lemma flatten_items_raise_only (parent_key : string) (kvs : dict) :
  Forall (fun kv => raises_only (snd kv) /\
                    forall l, snd kv = JArray l -> Forall raises_only l) kvs ->
  forall items e,
    flatten_items flatten separator parent_key kvs items = Raise e ->
    e = AttributeError.
Proof.
  induction 1 as [|[k v] kvs [Hv Hl] _ IH]; intros items e; simpl in *;
    [done|].
  destruct v; try apply IH.
  - destruct (flatten_enumerate _ _ _ _ _) as [items'|e'] eqn:Hen;
      [apply IH|].
    intros [= <-].
    eapply flatten_enumerate_raise_only; [|exact Hen]. by apply Hl.
  - destruct (flatten (JObject d) _) as [d'|e'] eqn:Hfv; [apply IH|].
    intros [= <-]. by apply (Hv _ _ Hfv).
Qed.

End FlattenFacts.

(** [flatten_json] has no case for a value that is not a [dict]. *)
Lemma flatten_json_non_dict (item : json) (parent_key separator : string) :
  is_dict item = false ->
  flatten_json item parent_key separator = Raise AttributeError.
Proof. by destruct item. Qed.

(** Whatever [flatten_json] raises is an [AttributeError], on a value
    and on the elements of an array. *)
Lemma flatten_json_raise_only (j : json) :
  (forall parent_key separator e,
     flatten_json j parent_key separator = Raise e -> e = AttributeError)
  /\ (forall l, j = JArray l ->
        Forall (fun x => forall parent_key separator e,
                  flatten_json x parent_key separator = Raise e ->
                  e = AttributeError) l).
Proof.
  induction j as [| | | | |l IH|d IH] using json_nested_ind;
    (split; [simpl; try congruence | try discriminate]).
  - intros l0 [= <-]. eapply Forall_impl; [exact IH|]. by intros x [Hx _].
  - intros parent_key separator e.
    destruct (flatten_items _ _ _ _ _) as [items|e'] eqn:Hit; [done|].
    intros [= <-].
    eapply (flatten_items_raise_only
              (fun v pk => flatten_json v pk separator)); [|exact Hit].
    eapply Forall_impl; [exact IH|]. intros [k v] [Hv Hl]. simpl in *.
    split.
    + intros pk e0. apply Hv.
    + intros l Hvl. eapply Forall_impl; [by apply Hl|].
      intros x Hx pk e0. apply Hx.
Qed.

(** C1.  The specification says that flattening [{"a": [1, 2]}] yields
    [{"a[0]": 1, "a[1]": 2}].  The code passes every array element to
    [flatten_json], which calls [.items()] on it: the call raises
    [AttributeError] on that very example, on any value that is
    not an object, and on any array that has such an element; an array
    of objects is flattened with [[index]] appended to the path. *)
Theorem flatten_json_array_of_scalars_raises :
  flatten_json_default (JObject [("a", JArray [JInt 1; JInt 2])])
    = Raise AttributeError
  /\ (forall item parent_key separator,
        if is_dict item then True
        else flatten_json item parent_key separator = Raise AttributeError)
  /\ (forall k l parent_key separator,
        if forallb is_dict l then True
        else flatten_json (JObject [(k, JArray l)]) parent_key separator
             = Raise AttributeError)
  /\ flatten_json_default
       (JObject [("a", JArray [JObject [("b", JInt 1)];
                                JObject [("b", JInt 2)]])])
     = Ok [("a[0].b", JInt 1); ("a[1].b", JInt 2)].
Proof.
  split; [reflexivity|]. split; [|split; [|reflexivity]].
  - intros item parent_key separator.
    destruct (is_dict item) eqn:Hitem; [done|].
    by apply flatten_json_non_dict.
  - intros k l parent_key separator.
    destruct (forallb is_dict l) eqn:Hl; [done|]. simpl.
    rewrite (flatten_enumerate_non_dict
               (fun v pk => flatten_json v pk separator)); [done| | |done].
    + intros x pk Hx. by apply flatten_json_non_dict.
    + destruct (flatten_json_raise_only (JArray l)) as [_ Hall].
      eapply Forall_impl; [by apply Hall|].
      intros x Hx pk e. apply Hx.
Qed.

(** C5.  Flattening, with an empty prefix, a dictionary whose values are
    all scalars returns that dictionary unchanged. *)
Theorem flatten_json_flat_identity (d : dict) :
  dict_wf d ->
  Forall (fun kv => is_scalar (snd kv) = true) d ->
  flatten_json_default (JObject d) = Ok d.
Proof.
  intros Hwf Hd. unfold flatten_json_default. simpl.
  rewrite flatten_items_scalars by done. simpl.
  by rewrite dict_from_items_id.
Qed.

Lemma flatten_json_flat_identity_witness :
  flatten_json_default
    (JObject [("codigo", JString "A1"); ("monto", JInt 25); ("nota", JNull)])
  = Ok [("codigo", JString "A1"); ("monto", JInt 25); ("nota", JNull)].
Proof.
  apply flatten_json_flat_identity.
  - apply (bool_decide_unpack _). vm_compute. reflexivity.
  - repeat constructor.
Defined.

(** C10.  Path strings are not injective: in [{"a.b": 1, "a": {"b": 2}}]
    the leaves [1] and [2] both get the path ["a.b"], and [dict(items)]
    keeps one entry for it, bound to the value produced last.  In
    general [dict(items)] has pairwise distinct keys and binds each key
    to the value of the last pair that carries it. *)
Theorem flatten_json_paths_collide :
  flatten_items (fun v pk => flatten_json v pk ".") "." ""
      [("a.b", JInt 1); ("a", JObject [("b", JInt 2)])] []
    = Ok [("a.b", JInt 1); ("a.b", JInt 2)]
  /\ flatten_json_default
       (JObject [("a.b", JInt 1); ("a", JObject [("b", JInt 2)])])
     = Ok [("a.b", JInt 2)]
  /\ (forall items : dict, dict_wf (dict_from_items items))
  /\ (forall (items : dict) k,
        lookup (dict_from_items items) k = last_binding items k).
Proof.
  split; [reflexivity|]. split; [reflexivity|].
  split; [apply dict_from_items_wf | apply dict_from_items_lookup].
Qed.

(** ** The Tabular Appender *)

Lemma elem_of_sorted (ks : gset string) (k : string) : k ∈ sorted ks <-> k ∈ ks.
Proof.
  unfold sorted. rewrite merge_sort_Permutation. apply elem_of_elements.
Qed.

Lemma sorted_StronglySorted (ks : gset string) :
  StronglySorted String.le (sorted ks).
Proof. apply StronglySorted_merge_sort; apply _. Qed.

Lemma sorted_NoDup (ks : gset string) : NoDup (sorted ks).
Proof.
  unfold sorted. rewrite merge_sort_Permutation. apply NoDup_elements.
Qed.

Lemma elem_of_column_set (data : dict) (k : string) :
  k ∈ column_set data <->
  k ∈ keys data \/ k = "numeroControl" \/ k = "processID".
Proof. unfold column_set. set_solver. Qed.

Lemma keys_injected E data numero_control k :
  k ∈ keys (injected E data numero_control) <-> k ∈ column_set data.
Proof.
  unfold injected. rewrite !keys_setitem, elem_of_column_set. tauto.
Qed.

Lemma writerow_ok (path : string) (fieldnames : list string) (rowdict : dict)
    (w : world) :
  (forall k, k ∈ keys rowdict -> k ∈ fieldnames) ->
  writerow path fieldnames rowdict w =
  write_line path (row_of fieldnames rowdict) w.
Proof.
  intros Hsub. unfold writerow.
  replace (forallb _ _) with true; [done|].
  symmetry. apply forallb_forall. intros k Hk.
  apply bool_decide_eq_true, Hsub, list_elem_of_In, Hk.
Qed.

(** What one call of the appender does to the world and to [data]. *)
Lemma append_flattened_to_csv_spec E data filename numero_control w :
  let fieldnames := sorted (column_set data) in
  let data' := injected E data numero_control in
  let row := Row (row_of fieldnames data') in
  append_flattened_to_csv E data filename numero_control w =
  (Ok data',
   mkWorld
     (<[filename :=
          match files w !! filename with
          | Some old => old ++ [row]
          | None => [Row (JString <$> fieldnames); row]
          end]> (files w))
     (trace w ++ [EvAppend filename data numero_control])).
Proof.
  intros fieldnames data' row.
  assert (Hsub : forall k, k ∈ keys data' -> k ∈ fieldnames).
  { intros k. unfold data', fieldnames.
    by rewrite keys_injected, elem_of_sorted. }
  unfold append_flattened_to_csv, bind, log, os_path_exists, open_append,
    writeheader, ret. simpl.
  fold (column_set data). fold fieldnames.
  change (dict_setitem (dict_setitem data "numeroControl" numero_control)
            "processID" (JString (process_id E))) with data'.
  destruct (files w !! filename) as [old|] eqn:Hf; simpl.
  - rewrite writerow_ok by done.
    unfold write_line. simpl. by rewrite Hf.
  - rewrite lookup_insert_eq. simpl.
    rewrite writerow_ok by done.
    unfold write_line. simpl. rewrite lookup_insert_eq. simpl.
    by rewrite !insert_insert_eq.
Qed.

Lemma lookup_injected E data numero_control k :
  lookup (injected E data numero_control) k =
  if String.eqb k "processID" then Some (JString (process_id E))
  else if String.eqb k "numeroControl" then Some numero_control
  else lookup data k.
Proof.
  unfold injected.
  destruct (String.eqb k "processID") eqn:Hp.
  { apply String.eqb_eq in Hp as ->. apply lookup_setitem_eq. }
  apply String.eqb_neq in Hp. rewrite lookup_setitem_ne by done.
  destruct (String.eqb k "numeroControl") eqn:Hn.
  { apply String.eqb_eq in Hn as ->. apply lookup_setitem_eq. }
  apply String.eqb_neq in Hn. by rewrite lookup_setitem_ne.
Qed.

(** A column that is in [fieldnames] holds the record's value for it. *)
Lemma row_of_lookup (fieldnames : list string) (rowdict : dict) k v :
  k ∈ fieldnames -> lookup rowdict k = Some v ->
  exists i, fieldnames !! i = Some k /\ row_of fieldnames rowdict !! i = Some v.
Proof.
  intros [i Hi]%list_elem_of_lookup Hv. exists i. split; [done|].
  unfold row_of. rewrite list_lookup_fmap, Hi. simpl.
  unfold get. by rewrite Hv.
Qed.

(** C2.  The columns of a call are the record's keys and the two
    injected names, in increasing order of [String.le] and without
    repetition.  A missing destination file receives the header made of
    these columns and then the row; an existing one keeps its content,
    header included, and receives only the row, whose values follow the
    columns of this call. *)
Theorem append_flattened_to_csv_columns E data filename numero_control w :
  let columns := sorted (column_set data) in
  let row := Row (row_of columns (injected E data numero_control)) in
  let w' := snd (append_flattened_to_csv E data filename numero_control w) in
  (forall k, k ∈ columns <->
             k ∈ keys data \/ k = "numeroControl" \/ k = "processID")
  /\ StronglySorted String.le columns
  /\ NoDup columns
  /\ files w' =
     <[filename :=
         match files w !! filename with
         | None => [Row (JString <$> columns); row]
         | Some old => old ++ [row]
         end]> (files w)
  /\ (forall k, k ∈ columns <->
                is_Some (lookup (injected E data numero_control) k)).
Proof.
  intros columns row w'. unfold w'.
  rewrite append_flattened_to_csv_spec. simpl.
  split; [|split; [|split; [|split]]].
  - intros k. unfold columns. by rewrite elem_of_sorted, elem_of_column_set.
  - apply sorted_StronglySorted.
  - apply sorted_NoDup.
  - by destruct (files w !! filename).
  - intros k. unfold columns.
    rewrite elem_of_sorted, <- keys_injected.
    destruct (lookup (injected E data numero_control) k) eqn:Hk.
    + split; [eauto|]. intros _.
      destruct (decide (k ∈ keys (injected E data numero_control)))
        as [|Hn]; [done|].
      apply lookup_None_keys in Hn. congruence.
    + apply lookup_None_keys in Hk. split; [done|]. by intros [? ?].
Qed.

(** C4.  The row written by a call has, at the positions of the columns
    ["numeroControl"] and ["processID"], the control number and the run
    identifier.  For the empty record these are its only two fields,
    and that record is what [process_entry] appends last for the key
    ["cuerpo documento"]. *)
Theorem appended_row_has_injected_fields E data filename numero_control w :
  let columns := sorted (column_set data) in
  let row := row_of columns (injected E data numero_control) in
  let w' := snd (append_flattened_to_csv E data filename numero_control w) in
  (exists old i j,
      files w' !! filename = Some (old ++ [Row row])
      /\ columns !! i = Some "numeroControl"
      /\ row !! i = Some numero_control
      /\ columns !! j = Some "processID"
      /\ row !! j = Some (JString (process_id E)))
  /\ sorted (column_set []) = ["numeroControl"; "processID"]
  /\ row_of (sorted (column_set [])) (injected E [] numero_control)
     = [numero_control; JString (process_id E)]
  /\ (forall output_folder value,
        process_entry E output_folder numero_control
                      ("cuerpo documento", value) =
        (process_value E "cuerpo documento"
           (os_path_join output_folder "cuerpo documento.csv")
           numero_control value ;;;
         append_flattened_to_csv E []
           (os_path_join output_folder "cuerpo documento.csv")
           numero_control ;;;
         ret tt)).
Proof.
  intros columns row w'. split; [|split; [|split]]; [|done..].
  unfold w'. rewrite append_flattened_to_csv_spec. simpl.
  rewrite lookup_insert_eq.
  destruct (row_of_lookup columns (injected E data numero_control)
              "numeroControl" numero_control) as (i & Hi & Hri).
  { unfold columns. rewrite elem_of_sorted, elem_of_column_set. tauto. }
  { by rewrite lookup_injected. }
  destruct (row_of_lookup columns (injected E data numero_control)
              "processID" (JString (process_id E))) as (j & Hj & Hrj).
  { unfold columns. rewrite elem_of_sorted, elem_of_column_set. tauto. }
  { by rewrite lookup_injected. }
  exists (match files w !! filename with
          | Some old => old
          | None => [Row (JString <$> columns)]
          end), i, j.
  split; [by destruct (files w !! filename)|done].
Qed.

(** C9.  The record is not left unchanged: the appender writes the two
    injected fields
    into the caller's dictionary, so an empty record is not empty when
    the call returns. *)
Lemma append_flattened_to_csv_mutates_data :
  fst (append_flattened_to_csv example_env [] "out/x.csv" (JString "N/A")
         example_world)
    = Ok [("numeroControl", JString "N/A"); ("processID", JString "run-1")]
  /\ fst (append_flattened_to_csv example_env [] "out/x.csv" (JString "N/A")
            example_world)
     <> Ok [].
Proof. split; [vm_compute; reflexivity | vm_compute; discriminate]. Qed.

(** C9, as the code has it.  When the call returns, the caller's
    dictionary binds ["numeroControl"] to the control number and
    ["processID"] to the run identifier; every other key is bound as
    before. *)
Theorem append_flattened_to_csv_data_after E data filename numero_control w k :
  fst (append_flattened_to_csv E data filename numero_control w)
    = Ok (injected E data numero_control)
  /\ lookup (injected E data numero_control) k =
     (if String.eqb k "processID" then Some (JString (process_id E))
      else if String.eqb k "numeroControl" then Some numero_control
      else lookup data k).
Proof.
  rewrite append_flattened_to_csv_spec. split; [done|].
  apply lookup_injected.
Qed.

(** ** The Document Router *)

(** C8.  The default does not apply when ["identificacion"] is present and is not
    an object: the path is absent, and the second [.get] raises. *)
Lemma numero_control_of_null_identificacion :
  numero_control_path (JObject [("identificacion", JNull)]) = None
  /\ numero_control_of (JObject [("identificacion", JNull)])
     = Raise AttributeError.
Proof. split; reflexivity. Qed.

(** C8, as the code has it.  When ["identificacion"] is missing, or is
    an object without ["numeroControl"], the control number is ["N/A"]
    and the document goes on to the loop over its entries. *)
Theorem numero_control_of_default (d : dict) :
  lacks_numero_control d ->
  numero_control_of (JObject d) = Ok (JString "N/A")
  /\ forall E input_folder output_folder processed_folder filename w,
       endswith filename ".json" = true ->
       files w !! os_path_join input_folder filename
         = Some [Text (Some (JObject d))] ->
       process_file E input_folder output_folder processed_folder filename w
       = (for_each d (process_entry E output_folder (JString "N/A")) ;;;
          shutil_move (os_path_join input_folder filename)
                      (os_path_join processed_folder filename) ;;;
          log (EvPrintMoved filename))
           (mkWorld (files w)
                    (trace w ++ [EvLoad (os_path_join input_folder filename)])).
Proof.
  intros Hd.
  assert (Hnc : numero_control_of (JObject d) = Ok (JString "N/A")).
  { unfold numero_control_of, py_get, get.
    destruct Hd as [-> | (i & -> & ->)]; done. }
  split; [done|].
  intros E input_folder output_folder processed_folder filename w Hjson Hfile.
  unfold process_file. rewrite Hjson.
  unfold bind at 1. unfold log at 1.
  unfold bind at 1. unfold json_load. simpl. rewrite Hfile.
  unfold bind at 1. unfold lift at 1. rewrite Hnc.
  reflexivity.
Qed.

Lemma numero_control_of_default_witness :
  numero_control_of
    (JObject [("identificacion", JObject [("version", JInt 3)]);
              ("resumen", JObject [("total", JInt 10)])])
  = Ok (JString "N/A").
Proof.
  apply numero_control_of_default.
  right. exists [("version", JInt 3)]. split; reflexivity.
Defined.

(** ** Traces *)

Section Emits.

Context {A B : Type} (P : event -> Prop).

Lemma emits_ret (a : A) : emits P (ret a).
Proof. intros w. exists []. by rewrite app_nil_r. Qed.

Lemma emits_lift (r : result A) : emits P (lift r).
Proof. intros w. exists []. by rewrite app_nil_r. Qed.

Lemma emits_log (e : event) : P e -> emits P (log e).
Proof. intros He w. exists [e]. split; [done | by constructor]. Qed.

Lemma emits_bind (c : M A) (k : A -> M B) :
  emits P c -> (forall a, emits P (k a)) -> emits P (bind c k).
Proof.
  intros Hc Hk w. destruct (Hc w) as (evs1 & Ht1 & HP1).
  unfold bind. destruct (c w) as [[a|e] w1]; simpl in *.
  - destruct (Hk a w1) as (evs2 & Ht2 & HP2).
    exists (evs1 ++ evs2). rewrite Ht2, Ht1, app_assoc.
    split; [done | by apply Forall_app].
  - by exists evs1.
Qed.

Lemma emits_weaken (Q : event -> Prop) (c : M A) :
  (forall e, Q e -> P e) -> emits Q c -> emits P c.
Proof.
  intros HQP Hc w. destruct (Hc w) as (evs & Ht & HQ).
  exists evs. split; [done|]. eapply Forall_impl; eauto.
Qed.

End Emits.

Lemma emits_for_each {A} (P : event -> Prop) (l : list A) (body : A -> M unit) :
  (forall x, emits P (body x)) -> emits P (for_each l body).
Proof.
  intros Hbody. induction l as [|x l IH]; simpl.
  - apply emits_ret.
  - apply emits_bind; [apply Hbody | intros _; apply IH].
Qed.

Lemma emits_append_flattened_to_csv E data filename numero_control :
  emits is_append (append_flattened_to_csv E data filename numero_control).
Proof.
  intros w. rewrite append_flattened_to_csv_spec. simpl.
  eexists. split; [done|]. by constructor.
Qed.

Lemma emits_process_item E key output_file numero_control item :
  emits is_append (process_item E key output_file numero_control item).
Proof.
  unfold process_item. destruct (is_dict item).
  - apply emits_bind; [apply emits_lift|]. intros d.
    apply emits_bind; [apply emits_append_flattened_to_csv|].
    intros _. apply emits_ret.
  - apply emits_bind; [apply emits_append_flattened_to_csv|].
    intros _. apply emits_ret.
Qed.

Lemma emits_process_value E key output_file numero_control value :
  emits is_append (process_value E key output_file numero_control value).
Proof.
  assert (Hscalar : emits is_append
            (append_flattened_to_csv E [(key, value)] output_file
               numero_control ;;; ret tt)).
  { apply emits_bind; [apply emits_append_flattened_to_csv|].
    intros _. apply emits_ret. }
  destruct value; try exact Hscalar; simpl.
  - apply emits_for_each. intros item. apply emits_process_item.
  - apply emits_bind; [apply emits_lift|]. intros flattened.
    apply emits_bind; [apply emits_append_flattened_to_csv|].
    intros _. apply emits_ret.
Qed.

Lemma emits_process_entry E output_folder numero_control entry :
  emits is_append (process_entry E output_folder numero_control entry).
Proof.
  destruct entry as [key value]. unfold process_entry.
  apply emits_bind; [apply emits_process_value|]. intros _.
  destruct (String.eqb key "cuerpo documento"); [|apply emits_ret].
  apply emits_bind; [apply emits_append_flattened_to_csv|].
  intros _. apply emits_ret.
Qed.

Lemma emits_shutil_move src dst :
  emits (fun e => e = EvMove src dst) (shutil_move src dst).
Proof.
  intros w. unfold shutil_move. destruct (files w !! src); simpl.
  - exists [EvMove src dst]. split; [done | by constructor].
  - exists []. by rewrite app_nil_r.
Qed.




(** Running a sequence step by step. *)
Lemma bind_bind {A B C} (c : M A) (k1 : A -> M B) (k2 : B -> M C) w :
  bind (bind c k1) k2 w = bind c (fun a => bind (k1 a) k2) w.
Proof. unfold bind. by destruct (c w) as [[a|e] w']. Qed.

Lemma bind_ret {A B} (a : A) (k : A -> M B) w : bind (ret a) k w = k a w.
Proof. done. Qed.

Lemma bind_lift_ok {A B} (a : A) (k : A -> M B) w :
  bind (lift (Ok a)) k w = k a w.
Proof. done. Qed.

Lemma bind_append {B} E data filename numero_control (k : dict -> M B) w :
  bind (append_flattened_to_csv E data filename numero_control) k w =
  k (injected E data numero_control)
    (appended E data filename numero_control w).
Proof.
  unfold bind, appended. by rewrite append_flattened_to_csv_spec.
Qed.

Lemma trace_appended E data filename numero_control w :
  trace (appended E data filename numero_control w) =
  trace w ++ [EvAppend filename data numero_control].
Proof. unfold appended. by rewrite append_flattened_to_csv_spec. Qed.

(** C3.  For the entries of [{"x": {"p": 1}, "y": [1, 2], "z": "s"}] the
    router calls the appender four times and returns: once for [x.csv]
    with the flattening of [{"p": 1}], twice for [y.csv] with [{"y": 1}]
    and [{"y": 2}], once for [z.csv] with [{"z": "s"}].  An element of a
    top-level array that is not an object is wrapped as [{key: element}]
    and is not flattened. *)
Theorem process_entries_example E output_folder numero_control w :
  let entries := [("x", JObject [("p", JInt 1)]);
                  ("y", JArray [JInt 1; JInt 2]);
                  ("z", JString "s")] in
  let r := for_each entries (process_entry E output_folder numero_control) w in
  fst r = Ok tt
  /\ trace (snd r) =
     trace w ++
     [EvAppend (os_path_join output_folder "x.csv") [("p", JInt 1)]
               numero_control;
      EvAppend (os_path_join output_folder "y.csv") [("y", JInt 1)]
               numero_control;
      EvAppend (os_path_join output_folder "y.csv") [("y", JInt 2)]
               numero_control;
      EvAppend (os_path_join output_folder "z.csv") [("z", JString "s")]
               numero_control]
  /\ flatten_json_default (JObject [("p", JInt 1)]) = Ok [("p", JInt 1)]
  /\ (forall key output_file item w0,
        if is_dict item then True
        else process_item E key output_file numero_control item w0 =
             (Ok tt,
              appended E [(key, item)] output_file numero_control w0)).
Proof.
  intros entries r.
  assert (Hr : r =
    (Ok tt,
     appended E [("z", JString "s")] (os_path_join output_folder "z.csv")
       numero_control
       (appended E [("y", JInt 2)] (os_path_join output_folder "y.csv")
          numero_control
          (appended E [("y", JInt 1)] (os_path_join output_folder "y.csv")
             numero_control
             (appended E [("p", JInt 1)] (os_path_join output_folder "x.csv")
                numero_control w))))).
  { unfold r, entries.
    cbn -[os_path_join append_flattened_to_csv bind].
    repeat (first [rewrite bind_bind | rewrite bind_ret
                  | rewrite bind_lift_ok | rewrite bind_append];
            cbv beta).
    reflexivity. }
  rewrite Hr. simpl. rewrite !trace_appended, <- !app_assoc. simpl.
  split; [done|]. split; [done|]. split; [done|].
  intros key output_file item w0. destruct item; try done;
    unfold process_item; simpl; by rewrite bind_append.
Qed.

Lemma bind_Ok_inv {A B} (c : M A) (k : A -> M B) w b w' :
  bind c k w = (Ok b, w') ->
  exists a w1, c w = (Ok a, w1) /\ k a w1 = (Ok b, w').
Proof.
  unfold bind. destruct (c w) as [[a|e] w1]; [eauto | discriminate].
Qed.

Lemma json_load_Ok_inv path w j w' :
  json_load path w = (Ok j, w') ->
  w' = w /\ files w !! path = Some [Text (Some j)].
Proof.
  unfold json_load.
  destruct (files w !! path) as [[|[[j'|]|] [|? ?]]|]; intros; simplify_eq.
  done.
Qed.


(** ** The Run Ledger *)

Lemma string_length_app (s1 s2 : string) :
  String.length (s1 +:+ s2) = String.length s1 + String.length s2.
Proof. induction s1 as [|c s1 IH]; simpl; [done | by rewrite IH]. Qed.







Lemma update_control_file_spec E control_file pid start_date end_date status
    w :
  open_control E control_file = None ->
  let record := [JString pid; JString start_date; JString end_date;
                 JString status] in
  update_control_file E control_file pid start_date end_date status w =
  (Ok tt,
   mkWorld
     (<[control_file :=
          match files w !! control_file with
          | Some old => old ++ [Row record]
          | None => [Row control_header; Row record]
          end]> (files w))
     (trace w ++ [EvControl control_file record])).
Proof.
  intros Hopen record.
  unfold update_control_file, open_control_file. rewrite Hopen.
  unfold bind, log, os_path_exists, open_append, writeheader, ret. simpl.
  assert (Hrow : forall w0,
    writerow control_file ["processID"; "start_date"; "end_date"; "status"]
      [("processID", JString pid); ("start_date", JString start_date);
       ("end_date", JString end_date); ("status", JString status)] w0 =
    write_line control_file record w0).
  { intros w0. by rewrite writerow_ok by (simpl; set_solver). }
  destruct (files w !! control_file) as [old|] eqn:Hf; simpl.
  - rewrite Hrow. unfold write_line. simpl. by rewrite Hf.
  - rewrite lookup_insert_eq. simpl. rewrite Hrow.
    unfold write_line. simpl. rewrite lookup_insert_eq. simpl.
    by rewrite !insert_insert_eq.
Qed.

(** When the file cannot be opened the call raises and writes nothing. *)
Lemma update_control_file_unopenable E control_file pid start_date end_date
    status e w :
  open_control E control_file = Some e ->
  update_control_file E control_file pid start_date end_date status w =
  (Raise e,
   mkWorld (files w)
     (trace w ++ [EvControl control_file
                    [JString pid; JString start_date; JString end_date;
                     JString status]])).
Proof.
  intros Hopen. unfold update_control_file, open_control_file.
  rewrite Hopen. reflexivity.
Qed.







(** ** The example run, end to end *)

Example flatten_json_nested :
  flatten_json_default (JObject [("a", JObject [("b", JInt 1)])])
  = Ok [("a.b", JInt 1)].
Proof. reflexivity. Qed.

Example os_path_join_cases :
  os_path_join "files/fc" "d.json" = "files/fc/d.json"
  /\ os_path_join "out/" "x.csv" = "out/x.csv"
  /\ os_path_join "" "x.csv" = "x.csv"
  /\ os_path_join "in" "/abs/d.json" = "/abs/d.json".
Proof. repeat split. Qed.

Example endswith_cases :
  endswith "d.json" ".json" = true
  /\ endswith "notes.txt" ".json" = false
  /\ endswith "json" ".json" = false.
Proof. repeat split. Qed.

Example strftime_example :
  strftime (mkDatetime 2024 1 2 3 4 5) = "2024-01-02 03:04:05".
Proof. vm_compute. reflexivity. Qed.

(** One run of [main] on a folder that holds the document [example_doc]
    and a file that is not a document: three output files, the document
    archived, the other file left alone, one Run Record. *)
Example main_example :
  let w := example_run_world in
  let w' := snd (main example_run_env w) in
  fst (main example_run_env w) = Ok tt
  /\ files w' !! "files/fc/d.json" = None
  /\ files w' !! "files/fc/processed/d.json" = Some [Text (Some example_doc)]
  /\ files w' !! "files/fc/notes.txt" = Some [Text None]
  /\ files w' !! "files/fc/output_csv/identificacion.csv"
     = Some [Row [JString "numeroControl"; JString "processID"];
             Row [JString "DTE-01"; JString "run-1"]]
  /\ files w' !! "files/fc/output_csv/cuerpo documento.csv"
     = Some [Row [JString "item"; JString "numeroControl"; JString "processID"];
             Row [JInt 1; JString "DTE-01"; JString "run-1"];
             Row [JString "DTE-01"; JString "run-1"]]
  /\ files w' !! "files/fc/output_csv/resumen.csv"
     = Some [Row [JString "numeroControl"; JString "processID"; JString "total"];
             Row [JString "DTE-01"; JString "run-1"; JInt 10]]
  /\ files w' !! "files/fc/output_csv/control.csv"
     = Some [Row control_header;
             Row [JString "run-1"; JString "2024-01-02 03:04:00";
                  JString "2024-01-02 03:04:11"; JString "Success"]].
Proof. vm_compute. repeat split. Qed.

(** * Further properties *)

(** ** The Flattener: when it returns, and what it returns *)

Section FlattenReturns.

Variable flatten : json -> string -> result dict.
Variable separator : string.
Variable ok : json -> bool.

(** [ok] tells whether the recursive call returns on [x], and when it
    does not the call raises [AttributeError]. *)
Let decided (x : json) : Prop :=
  forall pk, if ok x then exists d, flatten x pk = Ok d
             else flatten x pk = Raise AttributeError.

Lemma flatten_enumerate_decided (new_key : string) (l : list json) :
  Forall decided l ->
  forall i items,
    if forallb ok l
    then exists items', flatten_enumerate flatten new_key l i items = Ok items'
    else flatten_enumerate flatten new_key l i items = Raise AttributeError.
Proof.
  induction 1 as [|x l Hx _ IH]; intros i items; simpl; [eauto|].
  specialize (Hx (new_key +:+ "[" +:+ str_of_nat i +:+ "]")).
  destruct (ok x); simpl.
  - destruct Hx as [d ->]. apply IH.
  - by rewrite Hx.
Qed.

Lemma flatten_items_decided (parent_key : string) (kvs : dict) :
  Forall (fun kv => decided (snd kv) /\
                    forall l, snd kv = JArray l -> Forall decided l) kvs ->
  forall items,
    if forallb (entry_flattenable ok) kvs
    then exists items',
        flatten_items flatten separator parent_key kvs items = Ok items'
    else flatten_items flatten separator parent_key kvs items
         = Raise AttributeError.
Proof.
  induction 1 as [|[k v] kvs [Hv Hl] _ IH]; intros items; simpl; [eauto|].
  unfold entry_flattenable at 1. simpl in *.
  destruct v; simpl; try apply IH.
  - pose proof (flatten_enumerate_decided
                  (if truthy parent_key then parent_key +:+ separator +:+ k
                   else k) l (Hl l eq_refl) 0 items) as Hen.
    destruct (forallb ok l); simpl.
    + destruct Hen as [items' ->]. apply IH.
    + by rewrite Hen.
  - specialize (Hv (if truthy parent_key then parent_key +:+ separator +:+ k
                    else k)).
    destruct (ok (JObject d)); simpl.
    + destruct Hv as [d' ->]. apply IH.
    + by rewrite Hv.
Qed.

End FlattenReturns.

Lemma flatten_json_decided (j : json) :
  (forall parent_key separator,
     if flattenable j then exists d, flatten_json j parent_key separator = Ok d
     else flatten_json j parent_key separator = Raise AttributeError)
  /\ (forall l, j = JArray l ->
        Forall (fun x => forall parent_key separator,
                  if flattenable x
                  then exists d, flatten_json x parent_key separator = Ok d
                  else flatten_json x parent_key separator
                       = Raise AttributeError) l).
Proof.
  induction j as [| | | | |l IH|d IH] using json_nested_ind;
    (split; [simpl; try done | try discriminate]).
  - intros l0 [= <-]. eapply Forall_impl; [exact IH|]. by intros x [Hx _].
  - intros parent_key separator.
    pose proof (flatten_items_decided
                  (fun v pk => flatten_json v pk separator) separator
                  flattenable parent_key d) as Hit.
    cbv beta in Hit. specialize (Hit ltac:(
      eapply Forall_impl; [exact IH|]; intros [k v] [Hv Hl]; simpl in *;
      split; [intros pk; apply Hv
             |intros l Hvl; eapply Forall_impl; [by apply Hl|];
              intros x Hx pk; apply Hx]) []).
    destruct (forallb (entry_flattenable flattenable) d).
    + destruct Hit as [items ->]. eauto.
    + by rewrite Hit.
Qed.

(** X1.  [flatten_json] returns a record only for an object in which
    every element of an array, at any depth, is an object: on a value
    with an array element that is a scalar or an array, wherever it
    lies, no record is returned. *)
Theorem flatten_json_returns_only_if_flattenable (j : json)
    (parent_key separator : string) (d : dict) :
  flatten_json j parent_key separator = Ok d -> flattenable j = true.
Proof.
  intros Hd. destruct (flatten_json_decided j) as [Hj _].
  specialize (Hj parent_key separator).
  destruct (flattenable j); [done|]. congruence.
Qed.

Lemma flatten_json_returns_only_if_flattenable_witness :
  flattenable
    (JObject [("a", JObject [("b", JArray [JObject [("c", JInt 1)]])]);
              ("d", JNull)]) = true.
Proof.
  apply (flatten_json_returns_only_if_flattenable _ "" "."
           [("a.b[0].c", JInt 1); ("d", JNull)]).
  reflexivity.
Defined.

Lemma setitem_Forall (S : string * json -> Prop) (d : dict) k v :
  Forall S d -> S (k, v) -> Forall S (dict_setitem d k v).
Proof.
  intros Hd Hkv. induction Hd as [|[k' v'] d Hk' Hd IH]; simpl.
  - by constructor.
  - destruct (String.eqb k' k) eqn:Hk.
    + apply String.eqb_eq in Hk as ->. by constructor.
    + constructor; [done | exact IH].
Qed.

Lemma dict_from_items_Forall (S : string * json -> Prop) (items : dict) :
  Forall S items -> Forall S (dict_from_items items).
Proof.
  change (dict_from_items items) with (dict_extend [] items).
  assert (Hnil : Forall S ([] : dict)) by constructor.
  revert Hnil. generalize ([] : dict) as d.
  induction items as [|[k v] items IH]; intros d Hd Hitems; simpl; [done|].
  apply Forall_cons in Hitems as [Hkv Hitems].
  apply IH; [|done]. by apply setitem_Forall.
Qed.

Lemma string_app_assoc (a b c : string) : (a +:+ b) +:+ c = a +:+ b +:+ c.
Proof.
  induction a as [|x a IH]; [done|].
  change (String x ((a +:+ b) +:+ c) = String x (a +:+ b +:+ c)).
  by rewrite IH.
Qed.

Section FlattenForall.

Variable flatten : json -> string -> result dict.
Variable separator : string.
Variable T : string * json -> Prop.

(** What the recursive call returns on [x] under [new_key[i]] is in [T]. *)
Let element_in (new_key : string) (x : json) : Prop :=
  forall i d,
    flatten x (new_key +:+ "[" +:+ str_of_nat i +:+ "]") = Ok d -> Forall T d.

Lemma flatten_enumerate_Forall (new_key : string) (l : list json) :
  Forall (element_in new_key) l ->
  forall i items items',
    Forall T items ->
    flatten_enumerate flatten new_key l i items = Ok items' ->
    Forall T items'.
Proof.
  induction 1 as [|x l Hx _ IH]; intros i items items' Hitems; simpl.
  - by intros [= <-].
  - destruct (flatten x _) as [d|e] eqn:Hfx; [|done].
    apply IH, Forall_app. split; [done|]. by apply (Hx _ _ Hfx).
Qed.

(** The three ways an entry adds to the pairs keep them in [T]. *)
Let entry_in (parent_key : string) (kv : string * json) : Prop :=
  let new_key :=
    if truthy parent_key then parent_key +:+ separator +:+ fst kv
    else fst kv in
  (is_scalar (snd kv) = true -> T (new_key, snd kv))
  /\ (forall d, flatten (snd kv) new_key = Ok d -> Forall T d)
  /\ (forall l, snd kv = JArray l -> Forall (element_in new_key) l).

Lemma flatten_items_Forall (parent_key : string) (kvs : dict) :
  Forall (entry_in parent_key) kvs ->
  forall items items',
    Forall T items ->
    flatten_items flatten separator parent_key kvs items = Ok items' ->
    Forall T items'.
Proof.
  induction 1 as [|[k v] kvs (Hs & Ho & Ha) _ IH]; intros items items' Hitems;
    simpl in *.
  - by intros [= <-].
  - destruct v;
      try (apply IH, Forall_app; split; [done|];
           constructor; [by apply Hs | constructor]).
    + destruct (flatten_enumerate _ _ _ _ _) as [items1|e] eqn:Hen; [|done].
      apply IH. eapply flatten_enumerate_Forall; [|exact Hitems|exact Hen].
      by apply Ha.
    + destruct (flatten (JObject d) _) as [d'|e] eqn:Hfv; [|done].
      apply IH, Forall_app. split; [done|]. by apply Ho.
Qed.

End FlattenForall.

Lemma flatten_json_values_scalar (j : json) :
  (forall parent_key separator d,
     flatten_json j parent_key separator = Ok d ->
     Forall (fun kv => is_scalar (snd kv) = true) d)
  /\ (forall l, j = JArray l ->
        Forall (fun x => forall parent_key separator d,
                  flatten_json x parent_key separator = Ok d ->
                  Forall (fun kv => is_scalar (snd kv) = true) d) l).
Proof.
  induction j as [| | | | |l IH|d IH] using json_nested_ind;
    (split; [simpl; try done | try discriminate]).
  - intros l0 [= <-]. eapply Forall_impl; [exact IH|]. by intros x [Hx _].
  - intros parent_key separator d'.
    destruct (flatten_items _ _ _ _ _) as [items|e] eqn:Hit; [|done].
    intros [= <-]. apply dict_from_items_Forall.
    eapply (flatten_items_Forall (fun v pk => flatten_json v pk separator));
      [|constructor|exact Hit].
    eapply Forall_impl; [exact IH|]. intros [k v] [Hv Hl]. simpl in *.
    split; [done|]. split; [by intros d0; apply Hv|].
    intros l Hvl. eapply Forall_impl; [by apply Hl|].
    intros x Hx i d0. apply Hx.
Qed.

(** X2.  What [flatten_json] returns is a flat record: its keys are pairwise
    distinct and none of its values is an object or an array. *)
Theorem flatten_json_flat_record (j : json) (parent_key separator : string)
    (d : dict) :
  flatten_json j parent_key separator = Ok d ->
  dict_wf d /\ Forall (fun kv => is_scalar (snd kv) = true) d.
Proof.
  intros Hd. split.
  - destruct j; try discriminate. simpl in Hd.
    destruct (flatten_items _ _ _ _ _); [|done].
    injection Hd as <-. apply dict_from_items_wf.
  - destruct (flatten_json_values_scalar j) as [Hj _]. by eapply Hj.
Qed.

Lemma flatten_json_flat_record_witness :
  dict_wf [("a[0].b", JInt 1); ("a[1].b", JInt 2); ("c", JNull)]
  /\ Forall (fun kv => is_scalar (snd kv) = true)
       [("a[0].b", JInt 1); ("a[1].b", JInt 2); ("c", JNull)].
Proof.
  apply (flatten_json_flat_record
           (JObject [("a", JArray [JObject [("b", JInt 1)];
                                   JObject [("b", JInt 2)]]);
                     ("c", JNull)]) "" ".").
  reflexivity.
Defined.

(** X3.  Flattening what [flatten_json] returned gives it back: the
    flattener is idempotent on its own output. *)
Theorem flatten_json_idempotent (j : json) (parent_key separator : string)
    (d : dict) :
  flatten_json j parent_key separator = Ok d ->
  flatten_json_default (JObject d) = Ok d.
Proof.
  intros Hd.
  assert (Hwf : dict_wf d).
  { destruct j; try discriminate. simpl in Hd.
    destruct (flatten_items _ _ _ _ _); [|done].
    injection Hd as <-. apply dict_from_items_wf. }
  destruct (flatten_json_values_scalar j) as [Hj _].
  unfold flatten_json_default. simpl.
  rewrite flatten_items_scalars by (by eapply Hj). simpl.
  by rewrite dict_from_items_id.
Qed.

Lemma flatten_json_idempotent_witness :
  flatten_json_default (JObject [("a.b", JInt 1); ("a.c[0].d", JBool true)])
  = Ok [("a.b", JInt 1); ("a.c[0].d", JBool true)].
Proof.
  apply (flatten_json_idempotent
           (JObject [("a", JObject [("b", JInt 1);
                                    ("c", JArray [JObject [("d", JBool true)]])])])
           "" ".").
  reflexivity.
Defined.

Lemma under_extend (parent_key separator middle rest key : string) :
  key = (parent_key +:+ separator +:+ middle) +:+ rest ->
  under parent_key separator key.
Proof.
  intros ->. exists (middle +:+ rest). by rewrite !string_app_assoc.
Qed.

Lemma truthy_app (a b : string) : truthy a = true -> truthy (a +:+ b) = true.
Proof. by destruct a. Qed.

Lemma flatten_json_keys_under_all (j : json) :
  (forall parent_key separator d,
     truthy parent_key = true ->
     flatten_json j parent_key separator = Ok d ->
     Forall (fun kv => under parent_key separator (fst kv)) d)
  /\ (forall l, j = JArray l ->
        Forall (fun x => forall parent_key separator d,
                  truthy parent_key = true ->
                  flatten_json x parent_key separator = Ok d ->
                  Forall (fun kv => under parent_key separator (fst kv)) d) l).
Proof.
  induction j as [| | | | |l IH|d IH] using json_nested_ind;
    (split; [simpl; try done | try discriminate]).
  - intros l0 [= <-]. eapply Forall_impl; [exact IH|]. by intros x [Hx _].
  - intros parent_key separator d' Hpk.
    destruct (flatten_items _ _ _ _ _) as [items|e] eqn:Hit; [|done].
    intros [= <-]. apply dict_from_items_Forall.
    eapply (flatten_items_Forall (fun v pk => flatten_json v pk separator));
      [|constructor|exact Hit].
    eapply Forall_impl; [exact IH|]. intros [k v] [Hv Hl]. simpl in *.
    rewrite Hpk. split; [|split].
    + intros _. by exists k.
    + intros d0 Hd0. eapply Forall_impl.
      * apply (Hv _ _ _ (truthy_app _ _ Hpk) Hd0).
      * intros [key val] [rest ->]. simpl.
        by apply (under_extend _ _ k (separator +:+ rest)).
    + intros l Hvl. eapply Forall_impl; [by apply Hl|].
      intros x Hx i d0 Hd0. eapply Forall_impl.
      * apply (Hx _ _ _ (truthy_app _ _ (truthy_app _ _ Hpk)) Hd0).
      * intros [key val] [rest ->]. simpl.
        apply (under_extend _ _ (k +:+ "[" +:+ str_of_nat i +:+ "]")
                 (separator +:+ rest)).
        by rewrite !string_app_assoc.
Qed.

(** X4.  With a non-empty prefix, every key of the result begins with the
    prefix followed by the separator. *)
Theorem flatten_json_keys_under (j : json) (parent_key separator : string)
    (d : dict) :
  truthy parent_key = true ->
  flatten_json j parent_key separator = Ok d ->
  Forall (fun kv => under parent_key separator (fst kv)) d.
Proof.
  destruct (flatten_json_keys_under_all j) as [Hj _]. apply Hj.
Qed.

Lemma flatten_json_keys_under_witness :
  Forall (fun kv => under "emisor" "." (fst kv))
    [("emisor.nit", JString "0614"); ("emisor.direccion.municipio", JInt 14)].
Proof.
  apply (flatten_json_keys_under
           (JObject [("nit", JString "0614");
                     ("direccion", JObject [("municipio", JInt 14)])])
           "emisor" ".");
    reflexivity.
Defined.

Lemma flatten_items_app (flatten : json -> string -> result dict)
    (separator parent_key : string) (a b items : dict) :
  flatten_items flatten separator parent_key (a ++ b) items =
  match flatten_items flatten separator parent_key a items with
  | Ok items' => flatten_items flatten separator parent_key b items'
  | Raise e => Raise e
  end.
Proof.
  revert items. induction a as [|[k v] a IH]; intros items; simpl; [done|].
  destruct v; try apply IH.
  - by destruct (flatten_enumerate _ _ _ _ _).
  - by destruct (flatten _ _).
Qed.

(** X5.  An entry whose value is an empty array or an empty object leaves no
    trace in the result: its key is lost. *)
Theorem flatten_json_drops_empty (d1 d2 : dict) (k parent_key separator : string) :
  flatten_json (JObject (d1 ++ (k, JArray []) :: d2)) parent_key separator
    = flatten_json (JObject (d1 ++ d2)) parent_key separator
  /\ flatten_json (JObject (d1 ++ (k, JObject []) :: d2)) parent_key separator
     = flatten_json (JObject (d1 ++ d2)) parent_key separator.
Proof.
  simpl. rewrite !flatten_items_app.
  destruct (flatten_items _ _ _ d1 []) as [items|e]; [|done].
  simpl. by rewrite app_nil_r.
Qed.

(** X6.  Under the empty prefix an entry whose key is the empty string gives
    its nested keys no prefix at all: they come out as top-level keys. *)
Theorem flatten_json_empty_key (d : dict) (separator : string) :
  flatten_json (JObject [("", JObject d)]) "" separator
  = flatten_json (JObject d) "" separator.
Proof.
  simpl. destruct (flatten_items _ _ _ d []) as [items|e]; [|done].
  simpl. by rewrite dict_from_items_id by apply dict_from_items_wf.
Qed.

(** ** Files: what is written, and where *)

Section FileEffects.

Context {A B : Type}.

Lemma writes_only_ret (Q : string -> Prop) (a : A) : writes_only Q (ret a).
Proof. by intros w p _. Qed.

Lemma writes_only_lift (Q : string -> Prop) (r : result A) :
  writes_only Q (lift r).
Proof. by intros w p _. Qed.

Lemma writes_only_bind (Q : string -> Prop) (c : M A) (k : A -> M B) :
  writes_only Q c -> (forall a, writes_only Q (k a)) ->
  writes_only Q (bind c k).
Proof.
  intros Hc Hk w p Hp. specialize (Hc w p Hp). unfold bind.
  destruct (c w) as [[a|e] w1]; simpl in *; [|done].
  by rewrite (Hk a w1 p Hp).
Qed.

Lemma writes_only_weaken (Q Q' : string -> Prop) (c : M A) :
  (forall p, Q p -> Q' p) -> writes_only Q c -> writes_only Q' c.
Proof. intros HQ Hc w p Hp. apply Hc. intros HQp. by apply Hp, HQ. Qed.

Lemma append_only_ret (a : A) : append_only (ret a).
Proof. intros w p old Hold. exists []. by rewrite app_nil_r. Qed.

Lemma append_only_lift (r : result A) : append_only (lift r).
Proof. intros w p old Hold. exists []. by rewrite app_nil_r. Qed.

Lemma append_only_bind (c : M A) (k : A -> M B) :
  append_only c -> (forall a, append_only (k a)) -> append_only (bind c k).
Proof.
  intros Hc Hk w p old Hold. destruct (Hc w p old Hold) as [new1 H1].
  unfold bind. destruct (c w) as [[a|e] w1]; simpl in *; [|eauto].
  destruct (Hk a w1 p _ H1) as [new2 H2].
  exists (new1 ++ new2). by rewrite H2, app_assoc.
Qed.

End FileEffects.

Lemma writes_only_for_each {A} (Q : string -> Prop) (l : list A)
    (body : A -> M unit) :
  (forall x, x ∈ l -> writes_only Q (body x)) ->
  writes_only Q (for_each l body).
Proof.
  induction l as [|x l IH]; intros Hbody; simpl.
  - apply writes_only_ret.
  - apply writes_only_bind; [apply Hbody; left|].
    intros _. apply IH. intros y Hy. apply Hbody. by right.
Qed.

Lemma append_only_for_each {A} (l : list A) (body : A -> M unit) :
  (forall x, append_only (body x)) -> append_only (for_each l body).
Proof.
  intros Hbody. induction l as [|x l IH]; simpl.
  - apply append_only_ret.
  - apply append_only_bind; [apply Hbody | intros _; apply IH].
Qed.

Lemma writes_only_append E data filename numero_control :
  writes_only (fun p => p = filename)
    (append_flattened_to_csv E data filename numero_control).
Proof.
  intros w p Hp. rewrite append_flattened_to_csv_spec. simpl.
  by rewrite lookup_insert_ne by congruence.
Qed.

Lemma append_only_append E data filename numero_control :
  append_only (append_flattened_to_csv E data filename numero_control).
Proof.
  intros w p old Hold. rewrite append_flattened_to_csv_spec. simpl.
  destruct (decide (p = filename)) as [->|Hne].
  - rewrite lookup_insert_eq, Hold. eauto.
  - rewrite lookup_insert_ne by done. exists []. by rewrite app_nil_r.
Qed.

Lemma writes_only_process_item E key output_file numero_control item :
  writes_only (fun p => p = output_file)
    (process_item E key output_file numero_control item).
Proof.
  unfold process_item. destruct (is_dict item).
  - apply writes_only_bind; [apply writes_only_lift|]. intros d.
    apply writes_only_bind; [apply writes_only_append|].
    intros _. apply writes_only_ret.
  - apply writes_only_bind; [apply writes_only_append|].
    intros _. apply writes_only_ret.
Qed.

Lemma append_only_process_item E key output_file numero_control item :
  append_only (process_item E key output_file numero_control item).
Proof.
  unfold process_item. destruct (is_dict item).
  - apply append_only_bind; [apply append_only_lift|]. intros d.
    apply append_only_bind; [apply append_only_append|].
    intros _. apply append_only_ret.
  - apply append_only_bind; [apply append_only_append|].
    intros _. apply append_only_ret.
Qed.

Lemma writes_only_process_entry E output_folder numero_control key value :
  writes_only (fun p => p = group_file output_folder key)
    (process_entry E output_folder numero_control (key, value)).
Proof.
  unfold process_entry. fold (group_file output_folder key).
  apply writes_only_bind.
  - assert (Hscalar : writes_only (fun p => p = group_file output_folder key)
              (append_flattened_to_csv E [(key, value)]
                 (group_file output_folder key) numero_control ;;; ret tt)).
    { apply writes_only_bind; [apply writes_only_append|].
      intros _. apply writes_only_ret. }
    destruct value; try exact Hscalar; simpl.
    + apply writes_only_for_each. intros item _.
      apply writes_only_process_item.
    + apply writes_only_bind; [apply writes_only_lift|]. intros d'.
      apply writes_only_bind; [apply writes_only_append|].
      intros _. apply writes_only_ret.
  - intros _. destruct (String.eqb key "cuerpo documento");
      [|apply writes_only_ret].
    apply writes_only_bind; [apply writes_only_append|].
    intros _. apply writes_only_ret.
Qed.

Lemma append_only_process_entry E output_folder numero_control entry :
  append_only (process_entry E output_folder numero_control entry).
Proof.
  destruct entry as [key value]. unfold process_entry.
  apply append_only_bind.
  - assert (Hscalar : append_only
              (append_flattened_to_csv E [(key, value)]
                 (os_path_join output_folder (key +:+ ".csv"))
                 numero_control ;;; ret tt)).
    { apply append_only_bind; [apply append_only_append|].
      intros _. apply append_only_ret. }
    destruct value; try exact Hscalar; simpl.
    + apply append_only_for_each. intros item.
      apply append_only_process_item.
    + apply append_only_bind; [apply append_only_lift|]. intros d'.
      apply append_only_bind; [apply append_only_append|].
      intros _. apply append_only_ret.
  - intros _. destruct (String.eqb key "cuerpo documento");
      [|apply append_only_ret].
    apply append_only_bind; [apply append_only_append|].
    intros _. apply append_only_ret.
Qed.

Lemma writes_only_entries E output_folder numero_control (entries : dict) :
  writes_only
    (fun p => exists key, key ∈ keys entries /\ p = group_file output_folder key)
    (for_each entries (process_entry E output_folder numero_control)).
Proof.
  apply writes_only_for_each. intros [key value] Hin.
  eapply writes_only_weaken; [|apply writes_only_process_entry].
  intros p ->. exists key. split; [|done].
  unfold keys. apply list_elem_of_fmap. by exists (key, value).
Qed.

(** X7.  The loop over a document's entries writes to the group files of the
    document's top-level keys and to no other path. *)
Theorem router_writes_only_group_files E output_folder numero_control
    (entries : dict) (w : world) (p : string) :
  (forall key, key ∈ keys entries -> p <> group_file output_folder key) ->
  files (snd (for_each entries (process_entry E output_folder numero_control) w))
    !! p = files w !! p.
Proof.
  intros Hp. apply writes_only_entries.
  intros (key & Hkey & ->). by apply (Hp key).
Qed.

Lemma router_writes_only_group_files_witness :
  files (snd (for_each [("resumen", JObject [("total", JInt 10)])]
                (process_entry example_env "out" (JString "N/A"))
                example_doc_world))
    !! "in/d.json" = Some [Text (Some example_doc)].
Proof.
  rewrite (router_writes_only_group_files example_env "out" (JString "N/A")
             [("resumen", JObject [("total", JInt 10)])] example_doc_world
             "in/d.json").
  - reflexivity.
  - intros key Hkey. apply list_elem_of_singleton in Hkey as ->.
    vm_compute. discriminate.
Defined.

(** X8.  The loop over a document's entries removes and rewrites nothing,
    whether it ends or raises: a file that exists keeps its content,
    rows of earlier calls included, and may only grow at its end. *)
Theorem router_append_only E output_folder numero_control (entries : dict)
    (w : world) (p : string) (old : file) :
  files w !! p = Some old ->
  exists new,
    files (snd (for_each entries (process_entry E output_folder numero_control)
                  w)) !! p = Some (old ++ new).
Proof.
  apply append_only_for_each. intros entry. apply append_only_process_entry.
Qed.

Lemma router_append_only_witness :
  exists new,
    files (snd (for_each [("in", JString "x"); ("y", JArray [JInt 1])]
                  (process_entry example_env "" (JString "N/A"))
                  (mkWorld {[ "in.csv" := [Row [JString "a"]] ]} [])))
      !! "in.csv" = Some ([Row [JString "a"]] ++ new).
Proof.
  apply (router_append_only example_env "" (JString "N/A")
           [("in", JString "x"); ("y", JArray [JInt 1])]
           (mkWorld {[ "in.csv" := [Row [JString "a"]] ]} []) "in.csv").
  reflexivity.
Defined.

(** X9.  Two calls for the same missing file: the header is the column set of
    the first call and is not extended by the second, whose row follows
    its own columns. *)
Theorem append_flattened_to_csv_twice E data1 data2 filename nc1 nc2 w :
  files w !! filename = None ->
  files (appended E data2 filename nc2 (appended E data1 filename nc1 w))
    !! filename
  = Some [Row (JString <$> sorted (column_set data1));
          Row (row_of (sorted (column_set data1)) (injected E data1 nc1));
          Row (row_of (sorted (column_set data2)) (injected E data2 nc2))].
Proof.
  intros Hnone. unfold appended.
  rewrite !append_flattened_to_csv_spec. simpl.
  rewrite !lookup_insert_eq. by rewrite Hnone.
Qed.

Lemma append_flattened_to_csv_twice_witness :
  files (appended example_env [("b", JInt 2); ("c", JInt 3)] "g.csv"
           (JString "N/A")
           (appended example_env [("a", JInt 1)] "g.csv" (JString "N/A")
              example_world)) !! "g.csv"
  = Some [Row [JString "a"; JString "numeroControl"; JString "processID"];
          Row [JInt 1; JString "N/A"; JString "run-1"];
          Row [JInt 2; JInt 3; JString "N/A"; JString "run-1"]].
Proof.
  rewrite (append_flattened_to_csv_twice example_env [("a", JInt 1)]
             [("b", JInt 2); ("c", JInt 3)] "g.csv" (JString "N/A")
             (JString "N/A") example_world).
  - vm_compute. reflexivity.
  - reflexivity.
Defined.

Lemma ledger_row_call E control_file (r : run_fields) (w : world) :
  open_control E control_file = None ->
  (let '(pid, start_date, end_date, status) := r in
   update_control_file E control_file pid start_date end_date status) w =
  (Ok tt,
   mkWorld
     (<[control_file :=
          match files w !! control_file with
          | Some old => old ++ [ledger_row r]
          | None => [Row control_header; ledger_row r]
          end]> (files w))
     (trace w ++ [EvControl control_file
                    (match ledger_row r with Row l => l | Text _ => [] end)])).
Proof.
  intros Hopen. destruct r as [[[pid start_date] end_date] status].
  by rewrite update_control_file_spec.
Qed.

Lemma ledger_calls_existing E control_file (runs : list run_fields) :
  open_control E control_file = None ->
  forall w old,
    files w !! control_file = Some old ->
    fst (ledger_calls E control_file runs w) = Ok tt
    /\ files (snd (ledger_calls E control_file runs w)) !! control_file
       = Some (old ++ (ledger_row <$> runs)).
Proof.
  intros Hopen. unfold ledger_calls.
  induction runs as [|r runs IH]; intros w old Hold; simpl.
  - by rewrite app_nil_r.
  - unfold bind. rewrite ledger_row_call by done. rewrite Hold.
    edestruct IH as [Hfst Hfiles]; [|split; [exact Hfst|rewrite Hfiles]].
    + simpl. apply lookup_insert_eq.
    + by rewrite <- app_assoc.
Qed.

(** X10.  Calls of [update_control_file] on a control file that can be
    opened add up: every call returns and adds exactly one row, in
    order, and the header is written once, by the call that creates the
    file.  On a control file that cannot be opened the first call
    raises what [open] raises and no file changes. *)
Theorem update_control_file_accumulates E control_file
    (runs : list run_fields) (w : world) :
  match open_control E control_file with
  | None =>
      fst (ledger_calls E control_file runs w) = Ok tt
      /\ files (snd (ledger_calls E control_file runs w)) !! control_file =
         match files w !! control_file with
         | Some old => Some (old ++ (ledger_row <$> runs))
         | None =>
             match runs with
             | [] => None
             | _ :: _ => Some (Row control_header :: (ledger_row <$> runs))
             end
         end
  | Some e =>
      fst (ledger_calls E control_file runs w) =
        match runs with [] => Ok tt | _ :: _ => Raise e end
      /\ files (snd (ledger_calls E control_file runs w)) = files w
  end.
Proof.
  destruct (open_control E control_file) as [e|] eqn:Hopen.
  - destruct runs as [|[[[pid start_date] end_date] status] runs]; [done|].
    unfold ledger_calls. simpl. unfold bind.
    by rewrite (update_control_file_unopenable _ _ _ _ _ _ e).
  - destruct (files w !! control_file) as [old|] eqn:Hw.
    + by apply ledger_calls_existing.
    + destruct runs as [|r runs]; [done|].
      change (ledger_calls E control_file (r :: runs) w) with
        (bind ((let '(pid, start_date, end_date, status) := r in
                update_control_file E control_file pid start_date end_date
                  status))
              (fun _ => ledger_calls E control_file runs) w).
      unfold bind. rewrite ledger_row_call by done. rewrite Hw.
      edestruct (ledger_calls_existing E control_file runs Hopen)
        as [Hfst Hfiles]; [|split; [exact Hfst|rewrite Hfiles]].
      * simpl. apply lookup_insert_eq.
      * done.
Qed.

(** ** Paths: group files and documents never coincide *)

Lemma substring_all (s : string) : substring 0 (String.length s) s = s.
Proof. induction s as [|c s IH]; simpl; [done | by rewrite IH]. Qed.

Lemma substring_app_skip (p s : string) (m n : nat) :
  substring (String.length p + m) n (p +:+ s) = substring m n s.
Proof. induction p as [|c p IH]; [done|]. exact IH. Qed.

Lemma endswith_app_l (x b suffix : string) :
  endswith b suffix = true -> endswith (x +:+ b) suffix = true.
Proof.
  unfold endswith. intros [Hlen Heq]%andb_true_iff.
  apply Nat.leb_le in Hlen. rewrite string_length_app.
  apply andb_true_iff. split; [apply Nat.leb_le; lia|].
  replace (String.length x + String.length b - String.length suffix)
    with (String.length x + (String.length b - String.length suffix)) by lia.
  by rewrite substring_app_skip.
Qed.

Lemma os_path_join_tail (a b : string) : exists x, os_path_join a b = x +:+ b.
Proof.
  unfold os_path_join. destruct (startswith b "/"); [by exists ""|].
  destruct (negb (truthy a) || endswith a "/"); [by exists a|].
  exists (a +:+ "/"). by rewrite string_app_assoc.
Qed.

Lemma endswith_os_path_join (a b suffix : string) :
  endswith b suffix = true -> endswith (os_path_join a b) suffix = true.
Proof.
  intros Hb. destruct (os_path_join_tail a b) as [x ->].
  by apply endswith_app_l.
Qed.

Lemma group_file_csv (output_folder key : string) :
  endswith (group_file output_folder key) ".csv" = true.
Proof.
  unfold group_file. apply endswith_os_path_join.
  by apply (endswith_app_l key ".csv" ".csv").
Qed.

Lemma endswith_last (s suffix : string) (i : nat) (c : ascii) :
  endswith s suffix = true ->
  String.get i suffix = Some c ->
  S i = String.length suffix ->
  String.get (String.length s - 1) s = Some c.
Proof.
  unfold endswith. intros [Hlen Heq]%andb_true_iff Hc Hi.
  apply Nat.leb_le in Hlen. apply String.eqb_eq in Heq.
  rewrite <- Heq in Hc. rewrite substring_correct1 in Hc by lia.
  rewrite <- Hc. f_equal. lia.
Qed.

Lemma csv_not_json (s : string) :
  endswith s ".csv" = true -> endswith s ".json" = true -> False.
Proof.
  intros Hcsv Hjson.
  pose proof (endswith_last s ".csv" 3 "v"%char Hcsv eq_refl eq_refl) as Hv.
  pose proof (endswith_last s ".json" 4 "n"%char Hjson eq_refl eq_refl) as Hn.
  congruence.
Qed.

Lemma writes_only_csv E output_folder numero_control (entries : dict) :
  writes_only (fun p => endswith p ".csv" = true)
    (for_each entries (process_entry E output_folder numero_control)).
Proof.
  eapply writes_only_weaken; [|apply writes_only_entries].
  intros p (key & _ & ->). apply group_file_csv.
Qed.

Lemma not_csv_of_json (p : string) :
  endswith p ".json" = true -> ~ endswith p ".csv" = true.
Proof. intros Hjson Hcsv. by apply (csv_not_json p). Qed.

(** ** Documents: archived on success, left in place on failure *)

Lemma json_load_world path w : snd (json_load path w) = w.
Proof.
  unfold json_load.
  by destruct (files w !! path) as [[|[[j|]|] [|? ?]]|].
Qed.




(** X12.  When [process_file] raises for a document, nothing was moved: the
    events are the load and calls of the appender, and every file that
    is not a [.csv] file is as before, the document itself and the
    other documents of the intake included. *)
Theorem process_file_failure_keeps_documents E input_folder output_folder
    processed_folder filename w w' e :
  endswith filename ".json" = true ->
  process_file E input_folder output_folder processed_folder filename w
    = (Raise e, w') ->
  (forall p, endswith p ".csv" = false -> files w' !! p = files w !! p)
  /\ files w' !! os_path_join input_folder filename
     = files w !! os_path_join input_folder filename
  /\ exists appends,
       trace w' = trace w ++ EvLoad (os_path_join input_folder filename)
                               :: appends
       /\ Forall is_append appends.
Proof.
  intros Hjson Hrun.
  set (src := os_path_join input_folder filename) in *.
  set (w0 := mkWorld (files w) (trace w ++ [EvLoad src])).
  assert (Hbase : forall w1 appends,
    (forall p, endswith p ".csv" = false -> files w1 !! p = files w !! p) ->
    trace w1 = trace w ++ EvLoad src :: appends -> Forall is_append appends ->
    (forall p, endswith p ".csv" = false -> files w1 !! p = files w !! p)
    /\ files w1 !! src = files w !! src
    /\ exists appends, trace w1 = trace w ++ EvLoad src :: appends
                       /\ Forall is_append appends).
  { intros w1 appends Hf Ht Ha. split; [done|]. split; [|eauto].
    apply Hf. destruct (endswith src ".csv") eqn:Hcsv; [|done].
    exfalso. eapply csv_not_json; [exact Hcsv|].
    by apply endswith_os_path_join. }
  assert (Hw0 : forall p, endswith p ".csv" = false ->
                          files w0 !! p = files w !! p) by done.
  assert (Ht0 : trace w0 = trace w ++ EvLoad src :: [])
    by (simpl; done).
  unfold process_file in Hrun. rewrite Hjson in Hrun. fold src in Hrun.
  unfold bind at 1 in Hrun. unfold log at 1 in Hrun. fold w0 in Hrun.
  unfold bind at 1 in Hrun.
  pose proof (json_load_world src w0) as Hjw.
  destruct (json_load src w0) as [[json_data|e0] wj]; simpl in Hjw; subst wj;
    [|injection Hrun as <- <-; by apply (Hbase w0 [])].
  unfold bind at 1, lift at 1 in Hrun.
  destruct (numero_control_of json_data) as [numero_control|e0];
    [|injection Hrun as <- <-; by apply (Hbase w0 [])].
  unfold bind at 1, lift at 1 in Hrun.
  destruct (py_items json_data) as [entries|e0];
    [|injection Hrun as <- <-; by apply (Hbase w0 [])].
  unfold bind at 1 in Hrun.
  pose proof (writes_only_csv E output_folder numero_control entries w0)
    as Hframe.
  destruct (emits_for_each is_append entries
              (process_entry E output_folder numero_control)
              (emits_process_entry E output_folder numero_control) w0)
    as (appends & Htrace & Happends).
  destruct (for_each entries _ w0) as [[[]|e1] w1]; simpl in *.
  - unfold bind at 1, shutil_move in Hrun.
    destruct (files w1 !! src); [done|]. injection Hrun as <- <-.
    apply (Hbase w1 appends); [|by rewrite Htrace, <- app_assoc|done].
    intros p Hp. apply Hframe. by rewrite Hp.
  - injection Hrun as <- <-.
    apply (Hbase w1 appends); [|by rewrite Htrace, <- app_assoc|done].
    intros p Hp. apply Hframe. by rewrite Hp.
Qed.

Lemma process_file_failure_keeps_documents_witness :
  files (snd (process_file example_env "in" "out" "done" "bad.json"
                (mkWorld {[ "in/bad.json" :=
                              [Text (Some (JObject [("a", JInt 1);
                                 ("b", JObject [("c", JArray [JInt 2])])]))] ]}
                         []))) !! "in/bad.json"
  = Some [Text (Some (JObject [("a", JInt 1);
                               ("b", JObject [("c", JArray [JInt 2])])]))].
Proof.
  destruct (process_file_failure_keeps_documents example_env "in" "out" "done"
              "bad.json"
              (mkWorld {[ "in/bad.json" :=
                            [Text (Some (JObject [("a", JInt 1);
                               ("b", JObject [("c", JArray [JInt 2])])]))] ]}
                       [])
              (snd (process_file example_env "in" "out" "done" "bad.json"
                 (mkWorld {[ "in/bad.json" :=
                               [Text (Some (JObject [("a", JInt 1);
                                  ("b", JObject [("c", JArray [JInt 2])])]))] ]}
                          [])))
              AttributeError)
    as (_ & Hkeep & _).
  - vm_compute. reflexivity.
  - vm_compute. reflexivity.
  - etrans; [exact Hkeep|]. vm_compute. reflexivity.
Defined.

(** ** The batch: which files are processed, and where it stops *)

Lemma bind_ext {A B} (c : M A) (k1 k2 : A -> M B) (w : world) :
  (forall a w', k1 a w' = k2 a w') -> bind c k1 w = bind c k2 w.
Proof. intros Hk. unfold bind. by destruct (c w) as [[a|e] w1]. Qed.

Lemma for_each_app {A} (a b : list A) (body : A -> M unit) (w : world) :
  for_each (a ++ b) body w = bind (for_each a body) (fun _ => for_each b body) w.
Proof.
  revert w. induction a as [|x a IH]; intros w; simpl; [done|].
  rewrite bind_bind. apply bind_ext. intros _ w'. apply IH.
Qed.

Lemma process_files_in_folder_listing E input_folder output_folder
    processed_folder filenames w :
  listdir E input_folder = Ok filenames ->
  process_files_in_folder E input_folder output_folder processed_folder w =
  for_each filenames
    (process_file E input_folder output_folder processed_folder)
    (listing_started input_folder output_folder processed_folder w).
Proof.
  intros Hls. unfold process_files_in_folder, listing_started.
  rewrite Hls. unfold bind, log, lift. simpl. by rewrite <- !app_assoc.
Qed.

(** X13.  Names of the listing that do not end in [.json] play no part: the
    batch does what it would do on the listing without them. *)
Theorem process_files_in_folder_ignores_other_names E input_folder
    output_folder processed_folder filenames w :
  listdir E input_folder = Ok filenames ->
  process_files_in_folder E input_folder output_folder processed_folder w =
  for_each (List.filter (fun f => endswith f ".json") filenames)
    (process_file E input_folder output_folder processed_folder)
    (listing_started input_folder output_folder processed_folder w).
Proof.
  intros Hls. rewrite (process_files_in_folder_listing _ _ _ _ _ _ Hls).
  clear Hls.
  generalize (listing_started input_folder output_folder processed_folder w).
  induction filenames as [|f fs IH]; intros w0; simpl; [done|].
  destruct (endswith f ".json") eqn:Hf; simpl.
  - apply bind_ext. intros _ w'. apply IH.
  - unfold process_file at 1. rewrite Hf, bind_ret. apply IH.
Qed.

Lemma process_files_in_folder_ignores_other_names_witness :
  process_files_in_folder example_env "in" "out" "done" example_doc_world =
  for_each ["d.json"] (process_file example_env "in" "out" "done")
    (listing_started "in" "out" "done" example_doc_world).
Proof.
  apply (process_files_in_folder_ignores_other_names example_env "in" "out"
           "done" ["d.json"; "notes.txt"] example_doc_world).
  reflexivity.
Defined.

(** X14.  The batch stops at the first document on which [process_file]
    raises: the exception leaves [process_files_in_folder] with the
    world as that document left it, and the names that follow in the
    listing are not processed. *)
Theorem process_files_in_folder_stops_at_failure E input_folder output_folder
    processed_folder before failing after w w1 w2 e :
  listdir E input_folder = Ok (before ++ failing :: after) ->
  for_each before (process_file E input_folder output_folder processed_folder)
    (listing_started input_folder output_folder processed_folder w)
    = (Ok tt, w1) ->
  process_file E input_folder output_folder processed_folder failing w1
    = (Raise e, w2) ->
  process_files_in_folder E input_folder output_folder processed_folder w
    = (Raise e, w2).
Proof.
  intros Hls Hbefore Hfail.
  rewrite (process_files_in_folder_listing _ _ _ _ _ _ Hls).
  rewrite for_each_app. unfold bind at 1. rewrite Hbefore. simpl.
  unfold bind. by rewrite Hfail.
Qed.

Lemma process_files_in_folder_stops_at_failure_witness :
  fst (process_files_in_folder example_batch_env "in" "out" "done"
         example_batch_world) = Raise JSONDecodeError
  /\ files (snd (process_files_in_folder example_batch_env "in" "out" "done"
                   example_batch_world)) !! "in/later.json"
     = Some [Text (Some (JObject [("z", JInt 2)]))].
Proof.
  rewrite (process_files_in_folder_stops_at_failure example_batch_env
             "in" "out" "done" ["ok.json"] "bad.json" ["later.json"]
             example_batch_world
             (snd (for_each ["ok.json"]
                     (process_file example_batch_env "in" "out" "done")
                     (listing_started "in" "out" "done" example_batch_world)))
             (snd (process_file example_batch_env "in" "out" "done" "bad.json"
                (snd (for_each ["ok.json"]
                        (process_file example_batch_env "in" "out" "done")
                        (listing_started "in" "out" "done"
                           example_batch_world)))))
             JSONDecodeError).
  - split; [reflexivity | vm_compute; reflexivity].
  - reflexivity.
  - vm_compute. reflexivity.
  - vm_compute. reflexivity.
Defined.

Lemma process_files_in_folder_listdir_raise E input_folder output_folder
    processed_folder e w :
  listdir E input_folder = Raise e ->
  process_files_in_folder E input_folder output_folder processed_folder w =
  (Raise e, listing_started input_folder output_folder processed_folder w).
Proof.
  intros Hls. unfold process_files_in_folder, listing_started.
  rewrite Hls. unfold bind, log, lift. simpl. by rewrite <- !app_assoc.
Qed.

(** X15.  When listing the intake folder raises and the control file can
    be opened, [main] returns: it makes no call of the appender and
    moves nothing, the only file that changes is the control file, and
    it receives one record with status ["Failed"], after the header
    when the file is new. *)
Theorem main_unlistable_input_folder E e w :
  listdir E (input_folder_of E) = Raise e ->
  open_control E (control_file_of E) = None ->
  exists m n,
    m < n /\
    let start := clock E m in
    let finish := clock E n in
    let record := run_record E start finish "Failed" in
    main E w =
    (Ok tt,
     mkWorld
       (<[control_file_of E :=
            match files w !! control_file_of E with
            | Some old => old ++ [Row record]
            | None => [Row control_header; Row record]
            end]> (files w))
       (trace w ++
        [EvNow start; EvMakedirs (output_folder_of E);
         EvMakedirs (processed_folder_of E); EvListdir (input_folder_of E);
         EvPrintError e; EvNow finish;
         EvControl (control_file_of E) record])).
Proof.
  intros Hls Hopen.
  exists (length (trace w)), (length (trace w) + 5). split; [lia|].
  intros start finish record. unfold main.
  fold (input_folder_of E) (output_folder_of E) (processed_folder_of E)
    (control_file_of E).
  unfold bind at 1. unfold datetime_now at 1. fold start.
  unfold bind at 1. unfold try_status.
  rewrite (process_files_in_folder_listdir_raise _ _ _ _ _ _ Hls).
  unfold listing_started. simpl.
  unfold bind at 1. unfold datetime_now. simpl.
  rewrite update_control_file_spec by done. simpl.
  replace (length ((((trace w ++ [EvNow start]) ++
             [EvMakedirs (output_folder_of E);
              EvMakedirs (processed_folder_of E);
              EvListdir (input_folder_of E)]) ++ [EvPrintError e])))
    with (length (trace w) + 5) by (rewrite !length_app; simpl; lia).
  fold finish. fold record. by rewrite <- !app_assoc.
Qed.

Lemma main_unlistable_input_folder_witness :
  fst (main example_missing_env example_world) = Ok tt
  /\ files (snd (main example_missing_env example_world))
     = {[ "files/fc/output_csv/control.csv" :=
            [Row control_header;
             Row [JString "run-3"; JString "2024-01-02 03:04:00";
                  JString "2024-01-02 03:04:05"; JString "Failed"]] ]}.
Proof.
  destruct (main_unlistable_input_folder example_missing_env FileNotFoundError
              example_world eq_refl eq_refl) as (m & n & _ & Hmain).
  split.
  - by rewrite Hmain.
  - vm_compute. reflexivity.
Defined.

(** ** The router: one row per array element, and the boundary record *)

Lemma process_item_record E key output_file numero_control item w :
  process_item E key output_file numero_control item w =
  match record_of key item with
  | Ok d => (Ok tt, appended E d output_file numero_control w)
  | Raise e => (Raise e, w)
  end.
Proof.
  unfold process_item, record_of. destruct (is_dict item).
  - destruct (flatten_json_default item) as [d|e]; [|done].
    rewrite bind_lift_ok. by rewrite bind_append.
  - by rewrite bind_append.
Qed.

(** X16.  A top-level array gives one call of the appender per element, in
    order and for the same file: with the flattening of the element if
    it is an object, with [{key: element}] otherwise. *)
Theorem process_items_one_record_each E key output_file numero_control
    (l : list json) (records : list dict) (w : world) :
  Forall2 (fun item d => record_of key item = Ok d) l records ->
  fst (for_each l (process_item E key output_file numero_control) w) = Ok tt
  /\ trace (snd (for_each l (process_item E key output_file numero_control) w))
     = trace w ++ ((fun d => EvAppend output_file d numero_control) <$> records).
Proof.
  intros Hl. revert w.
  induction Hl as [|item d l records Hd _ IH]; intros w; simpl.
  - by rewrite app_nil_r.
  - unfold bind. rewrite process_item_record, Hd.
    destruct (IH (appended E d output_file numero_control w)) as [Hfst Htr].
    split; [exact Hfst|]. rewrite Htr, trace_appended.
    by rewrite <- app_assoc.
Qed.

Lemma process_items_one_record_each_witness :
  trace (snd (for_each [JObject [("a", JObject [("b", JInt 1)])]; JInt 7;
                        JArray [JInt 8]]
                (process_item example_env "k" "out/k.csv" (JString "N/A"))
                example_world))
  = [EvAppend "out/k.csv" [("a.b", JInt 1)] (JString "N/A");
     EvAppend "out/k.csv" [("k", JInt 7)] (JString "N/A");
     EvAppend "out/k.csv" [("k", JArray [JInt 8])] (JString "N/A")].
Proof.
  apply (process_items_one_record_each example_env "k" "out/k.csv"
           (JString "N/A")
           [JObject [("a", JObject [("b", JInt 1)])]; JInt 7; JArray [JInt 8]]
           [[("a.b", JInt 1)]; [("k", JInt 7)]; [("k", JArray [JInt 8])]]
           example_world).
  repeat constructor.
Defined.

(** X17.  The entry of the key ["cuerpo documento"] ends with one more call of
    the appender, for the empty record, only when its value was
    processed without an exception; the row it adds holds the control
    number and the run identifier, under a header of just these two
    columns when no row came before.  No other key gets such a row. *)
Theorem process_entry_boundary_record E output_folder numero_control key value
    w :
  let output_file := group_file output_folder key in
  process_entry E output_folder numero_control (key, value) w =
    match process_value E key output_file numero_control value w with
    | (Ok _, w1) =>
        (Ok tt,
         if String.eqb key "cuerpo documento"
         then appended E [] output_file numero_control w1
         else w1)
    | (Raise e, w1) => (Raise e, w1)
    end
  /\ forall w1,
       files (appended E [] output_file numero_control w1) !! output_file =
       Some (match files w1 !! output_file with
             | Some old => old
             | None => [Row [JString "numeroControl"; JString "processID"]]
             end ++ [Row [numero_control; JString (process_id E)]]).
Proof.
  intros output_file. split.
  - unfold process_entry. fold (group_file output_folder key).
    fold output_file. unfold bind at 1.
    destruct (process_value _ _ _ _ _ _) as [[[]|e] w1]; [|done].
    destruct (String.eqb key "cuerpo documento"); [|done].
    by rewrite bind_append.
  - intros w1. unfold appended. rewrite append_flattened_to_csv_spec. simpl.
    rewrite lookup_insert_eq.
    assert (Hcols : sorted (column_set []) = ["numeroControl"; "processID"])
      by (vm_compute; reflexivity).
    rewrite Hcols. by destruct (files w1 !! output_file).
Qed.

(** ** The control number of a document *)

Section Carries.

Variable E : env.
Variable P : event -> Prop.
Variable numero_control : json.
Hypothesis P_append : forall filename data,
  P (EvAppend filename data numero_control).

Lemma emits_append_with data filename :
  emits P (append_flattened_to_csv E data filename numero_control).
Proof.
  intros w. rewrite append_flattened_to_csv_spec. simpl.
  eexists. split; [done|]. constructor; [apply P_append | constructor].
Qed.

Lemma emits_process_item_with key output_file item :
  emits P (process_item E key output_file numero_control item).
Proof.
  unfold process_item. destruct (is_dict item).
  - apply emits_bind; [apply emits_lift|]. intros d.
    apply emits_bind; [apply emits_append_with|].
    intros _. apply emits_ret.
  - apply emits_bind; [apply emits_append_with|].
    intros _. apply emits_ret.
Qed.

Lemma emits_process_entry_with output_folder entry :
  emits P (process_entry E output_folder numero_control entry).
Proof.
  destruct entry as [key value]. unfold process_entry.
  apply emits_bind.
  - assert (Hscalar : emits P
              (append_flattened_to_csv E [(key, value)]
                 (os_path_join output_folder (key +:+ ".csv"))
                 numero_control ;;; ret tt)).
    { apply emits_bind; [apply emits_append_with|].
      intros _. apply emits_ret. }
    destruct value; try exact Hscalar; simpl.
    + apply emits_for_each. intros item. apply emits_process_item_with.
    + apply emits_bind; [apply emits_lift|]. intros flattened.
      apply emits_bind; [apply emits_append_with|].
      intros _. apply emits_ret.
  - intros _. destruct (String.eqb key "cuerpo documento"); [|apply emits_ret].
    apply emits_bind; [apply emits_append_with|].
    intros _. apply emits_ret.
Qed.

End Carries.

(** X18.  Every call of the appender that [process_file] makes for a document
    is made with the control number read from that document, whether
    the document is processed to the end or an exception stops it. *)
Theorem process_file_rows_carry_control_number E input_folder output_folder
    processed_folder filename json_data numero_control w :
  endswith filename ".json" = true ->
  files w !! os_path_join input_folder filename
    = Some [Text (Some json_data)] ->
  numero_control_of json_data = Ok numero_control ->
  exists evs,
    trace (snd (process_file E input_folder output_folder processed_folder
                  filename w)) = trace w ++ evs
    /\ Forall (carries numero_control) evs.
Proof.
  intros Hjson Hfile Hnc. unfold process_file. rewrite Hjson.
  set (src := os_path_join input_folder filename) in *.
  assert (Hrest : emits (carries numero_control)
    (entries <~ lift (py_items json_data) ;;
     for_each entries (process_entry E output_folder numero_control) ;;;
     shutil_move src (os_path_join processed_folder filename) ;;;
     log (EvPrintMoved filename))).
  { apply emits_bind; [apply emits_lift|]. intros entries.
    apply emits_bind.
    - apply emits_for_each. intros entry.
      by apply emits_process_entry_with.
    - intros _. apply emits_bind; [|by intros _; apply emits_log].
      eapply emits_weaken; [|apply emits_shutil_move]. by intros ? ->. }
  unfold bind at 1. unfold log at 1.
  unfold bind at 1. unfold json_load at 1. simpl. rewrite Hfile.
  unfold bind at 1. unfold lift at 1. rewrite Hnc.
  destruct (Hrest (mkWorld (files w) (trace w ++ [EvLoad src])))
    as (evs & Htrace & Hevs).
  exists (EvLoad src :: evs). split.
  - rewrite Htrace. simpl. by rewrite <- app_assoc.
  - by constructor.
Qed.

Lemma process_file_rows_carry_control_number_witness :
  exists evs,
    trace (snd (process_file example_env "in" "out" "done" "d.json"
                  example_doc_world)) = evs
    /\ Forall (carries (JString "DTE-01")) evs.
Proof.
  destruct (process_file_rows_carry_control_number example_env "in" "out"
              "done" "d.json" example_doc (JString "DTE-01") example_doc_world)
    as (evs & Htrace & Hevs); [reflexivity..|].
  exists evs. split; [exact Htrace | exact Hevs].
Defined.

(** ** The default configuration *)

(** X19.  With the fallbacks of [main] for the output folder and the control
    file, the control file is the group file of the top-level key
    ["control"]: a document with that key has its rows appended to the
    file that holds the Run Records. *)
Theorem default_control_file_is_group_file E data numero_control w :
  folders E !! "output_folder" = None ->
  folders E !! "control_file" = None ->
  control_file_of E = group_file (output_folder_of E) "control"
  /\ files (appended E data (group_file (output_folder_of E) "control")
              numero_control w) !! control_file_of E
     = Some (match files w !! control_file_of E with
             | Some old => old
             | None => [Row (JString <$> sorted (column_set data))]
             end ++
             [Row (row_of (sorted (column_set data))
                     (injected E data numero_control))]).
Proof.
  intros Hout Hctl.
  assert (Heq : control_file_of E = group_file (output_folder_of E) "control").
  { unfold control_file_of, output_folder_of, config_get.
    rewrite Hout, Hctl. reflexivity. }
  split; [exact Heq|]. rewrite <- Heq. unfold appended.
  rewrite append_flattened_to_csv_spec. simpl. rewrite lookup_insert_eq.
  by destruct (files w !! control_file_of E).
Qed.

Lemma default_control_file_is_group_file_witness :
  control_file_of example_env = group_file (output_folder_of example_env) "control".
Proof.
  apply (default_control_file_is_group_file example_env [] JNull example_world);
    reflexivity.
Defined.

(** ** Archiving comes after every record of the document *)

Lemma append_all_app E numero_control (a b : list (string * dict)) w :
  append_all E numero_control (a ++ b) w =
  append_all E numero_control b (append_all E numero_control a w).
Proof. unfold append_all. apply fold_left_app. Qed.

Lemma trace_append_all E numero_control (records : list (string * dict)) w :
  trace (append_all E numero_control records w) =
  trace w ++ ((fun r => EvAppend (fst r) (snd r) numero_control) <$> records).
Proof.
  revert w. induction records as [|[f d] records IH]; intros w; simpl.
  - by rewrite app_nil_r.
  - unfold append_all in *. simpl. rewrite IH, trace_appended.
    by rewrite <- app_assoc.
Qed.

Lemma process_items_records E key output_file numero_control (l : list json)
    w w1 :
  for_each l (process_item E key output_file numero_control) w = (Ok tt, w1) ->
  exists ds,
    records_of_items key l = Ok ds
    /\ w1 = append_all E numero_control ((fun d => (output_file, d)) <$> ds) w.
Proof.
  revert w. induction l as [|item l IH]; intros w; simpl.
  - intros [= <-]. by exists [].
  - unfold bind. rewrite process_item_record.
    destruct (record_of key item) as [d|e]; [|done].
    intros Hrest. destruct (IH _ Hrest) as (ds & -> & ->).
    by exists (d :: ds).
Qed.

Lemma process_value_records E key output_file numero_control value w w1 :
  process_value E key output_file numero_control value w = (Ok tt, w1) ->
  exists ds,
    records_of_value key value = Ok ds
    /\ w1 = append_all E numero_control ((fun d => (output_file, d)) <$> ds) w.
Proof.
  assert (Hscalar :
    (append_flattened_to_csv E [(key, value)] output_file numero_control ;;;
     ret tt) w = (Ok tt, w1) ->
    w1 = append_all E numero_control [(output_file, [(key, value)])] w).
  { rewrite bind_append. by intros [= <-]. }
  destruct value; simpl;
    try (intros Hrun; eexists; split; [reflexivity | by apply Hscalar]).
  - apply process_items_records.
  - destruct (flatten_json_default (JObject d)) as [d'|e] eqn:Hd;
      unfold bind at 1, lift at 1; [|done].
    rewrite bind_append. intros [= <-]. by exists [d'].
Qed.

Lemma process_entry_records E output_folder numero_control entry w w1 :
  process_entry E output_folder numero_control entry w = (Ok tt, w1) ->
  exists rs,
    records_of_entry output_folder entry = Ok rs
    /\ w1 = append_all E numero_control rs w.
Proof.
  destruct entry as [key value]. unfold process_entry, records_of_entry.
  fold (group_file output_folder key).
  intros Hrun. apply bind_Ok_inv in Hrun as ([] & wv & Hvalue & Hrun).
  apply process_value_records in Hvalue as (ds & -> & ->).
  eexists. split; [reflexivity|].
  rewrite fmap_app, append_all_app.
  destruct (String.eqb key "cuerpo documento").
  - rewrite bind_append in Hrun. by injection Hrun as <-.
  - by injection Hrun as <-.
Qed.

Lemma process_entries_records E output_folder numero_control (entries : dict)
    w w1 :
  for_each entries (process_entry E output_folder numero_control) w
    = (Ok tt, w1) ->
  exists rs,
    records_of_entries output_folder entries = Ok rs
    /\ w1 = append_all E numero_control rs w.
Proof.
  revert w. induction entries as [|entry entries IH]; intros w; simpl.
  - intros [= <-]. by exists [].
  - intros Hrun. apply bind_Ok_inv in Hrun as ([] & we & Hentry & Hrest).
    apply process_entry_records in Hentry as (rs & -> & ->).
    apply IH in Hrest as (rs' & -> & ->).
    exists (rs ++ rs'). by rewrite append_all_app.
Qed.

(** C6.  Archiving is not the last action for a document: after the
    move, [process_file] prints the console message. *)
Lemma process_file_ends_with_console_message :
  fst (process_file example_env "in" "out" "done" "d.json" example_doc_world)
    = Ok tt
  /\ last (trace (snd (process_file example_env "in" "out" "done" "d.json"
                         example_doc_world)))
     = Some (EvPrintMoved "d.json")
  /\ last (trace (snd (process_file example_env "in" "out" "done" "d.json"
                         example_doc_world)))
     <> Some (EvMove "in/d.json" "done/d.json").
Proof. vm_compute. split; [done|]. split; [done | discriminate]. Qed.

(** C6, as the code has it.  When [process_file] returns for a document,
    the records derived from the document's entries all exist, and what
    happened is, in this order: the load, one call of the appender for
    each derived record, with the group file of its entry and the
    control number of the document, then the move, then the console
    message.  The move acts on the files as these calls left them: the
    archive receives the document as it was read, and every group file
    still holds what the calls appended. *)
Theorem process_file_archives_after_records E input_folder output_folder
    processed_folder filename w w' :
  endswith filename ".json" = true ->
  process_file E input_folder output_folder processed_folder filename w
    = (Ok tt, w') ->
  let src := os_path_join input_folder filename in
  let dst := os_path_join processed_folder filename in
  exists json_data numero_control entries records,
    files w !! src = Some [Text (Some json_data)]
    /\ numero_control_of json_data = Ok numero_control
    /\ py_items json_data = Ok entries
    /\ records_of_entries output_folder entries = Ok records
    /\ let w1 := append_all E numero_control records
                   (mkWorld (files w) (trace w ++ [EvLoad src])) in
       w' = mkWorld
              (<[dst := [Text (Some json_data)]]> (delete src (files w1)))
              (trace w ++
               EvLoad src ::
               ((fun r => EvAppend (fst r) (snd r) numero_control) <$> records)
               ++ [EvMove src dst; EvPrintMoved filename])
       /\ forall key,
            files w' !! group_file output_folder key
            = files w1 !! group_file output_folder key.
Proof.
  intros Hjson Hrun src dst. unfold process_file in Hrun.
  rewrite Hjson in Hrun. fold src dst in Hrun.
  apply bind_Ok_inv in Hrun as ([] & w0 & Hlog & Hrun).
  unfold log in Hlog. simplify_eq.
  apply bind_Ok_inv in Hrun as (json_data & wj & Hload & Hrun).
  apply json_load_Ok_inv in Hload as [-> Hfile]. simpl in Hfile.
  apply bind_Ok_inv in Hrun as (numero_control & wn & Hnc & Hrun).
  unfold lift in Hnc. simplify_eq.
  apply bind_Ok_inv in Hrun as (entries & we & Hitems & Hrun).
  unfold lift in Hitems. simplify_eq.
  apply bind_Ok_inv in Hrun as ([] & w1 & Hloop & Hrun).
  apply bind_Ok_inv in Hrun as ([] & wm & Hmove & Hprint).
  unfold log in Hprint. simplify_eq.
  unfold shutil_move in Hmove.
  destruct (files w1 !! src) as [content|] eqn:Hsrc; simplify_eq.
  assert (Hsrc_json : endswith src ".json" = true)
    by by apply endswith_os_path_join.
  assert (Hdst_json : endswith dst ".json" = true)
    by by apply endswith_os_path_join.
  pose proof (writes_only_csv E output_folder numero_control entries
                (mkWorld (files w) (trace w ++ [EvLoad src])) src
                (not_csv_of_json _ Hsrc_json)) as Hkeep.
  rewrite Hloop in Hkeep. simpl in Hkeep.
  rewrite Hsrc, Hfile in Hkeep. injection Hkeep as ->.
  apply process_entries_records in Hloop as (records & Hrecords & ->).
  exists json_data, numero_control, entries, records.
  split; [done|]. split; [done|]. split; [done|]. split; [done|].
  simpl. split.
  - f_equal. rewrite trace_append_all. simpl.
    by rewrite <- !app_assoc.
  - intros key.
    pose proof (group_file_csv output_folder key) as Hcsv.
    rewrite lookup_insert_ne, lookup_delete_ne; [done| |];
      intros Heq; rewrite <- Heq in Hcsv; by eapply csv_not_json.
Qed.

Lemma process_file_archives_after_records_witness :
  trace (snd (process_file example_env "in" "out" "done" "d.json"
                example_doc_world))
  = [EvLoad "in/d.json";
     EvAppend "out/identificacion.csv" [("numeroControl", JString "DTE-01")]
              (JString "DTE-01");
     EvAppend "out/cuerpo documento.csv" [("item", JInt 1)] (JString "DTE-01");
     EvAppend "out/cuerpo documento.csv" [] (JString "DTE-01");
     EvAppend "out/resumen.csv" [("total", JInt 10)] (JString "DTE-01");
     EvMove "in/d.json" "done/d.json";
     EvPrintMoved "d.json"].
Proof.
  destruct (process_file_archives_after_records example_env "in" "out" "done"
              "d.json" example_doc_world
              (snd (process_file example_env "in" "out" "done" "d.json"
                      example_doc_world)))
    as (jd & nc & entries & records & Hfile & Hnc & Hitems & Hrecords
        & Hw' & _).
  - vm_compute. reflexivity.
  - vm_compute. reflexivity.
  - assert (jd = example_doc) as ->
      by (vm_compute in Hfile; injection Hfile as <-; reflexivity).
    vm_compute in Hnc. injection Hnc as <-.
    vm_compute in Hitems. injection Hitems as <-.
    vm_compute in Hrecords. injection Hrecords as <-.
    rewrite Hw'. vm_compute. reflexivity.
Defined.
